(** * telephish: fetch Telegram updates, extract a link, raise a toast

    A shallow embedding of [telephish.go] and the properties of its
    pipeline: [GetUpdates], [ExtractURL], [ShowNotification] and [main].

    Go values are modelled as the program has them: a pointer is an
    [option] ([None] is [nil]), a slice is an [option (list _)] ([None]
    is the nil slice), [int] and [int64] fields are [Z], strings are
    [string].  The library calls the program makes (the process
    environment, [net/http], [encoding/json], [go-ole]) are answered by
    a [World]; these calls, the log lines and the entries into
    [ExtractURL] and [ShowNotification] are recorded, in order, in the
    trace of the process. *)

From Stdlib Require Import String Ascii List ZArith Bool Lia.
Import ListNotations.
Local Open Scope string_scope.
Local Open Scope Z_scope.

(** ** Go values *)

Definition ptr (A : Type) : Type := option A.
Definition slice (A : Type) : Type := option (list A).

Definition elems {A : Type} (s : slice A) : list A :=
  match s with
  | None => []
  | Some l => l
  end.

Definition len {A : Type} (s : slice A) : Z := Z.of_nat (length (elems s)).

(** ** Data model (telephish.go, lines 14-33) *)

Record Entity : Type := mkEntity {
  Type_ : string;
  Offset : Z;
  Length : Z;
  URL : string
}.

Record TelegramMsg : Type := mkTelegramMsg {
  MessageID : Z;
  Text : string;
  Entities : slice Entity
}.

Record Update : Type := mkUpdate {
  UpdateID : Z;
  Message : ptr TelegramMsg
}.

(** The anonymous struct [updates] of [GetUpdates] (lines 43-46). *)
Record Envelope : Type := mkEnvelope {
  Ok : bool;
  Result : slice Update
}.

Definition zero_Envelope : Envelope := {| Ok := false; Result := None |}.

(** ** Errors

    A Go [error] is an opaque value with an [Error()] text.  The program
    returns two sorts of them: values handed back by a library call and
    returned unchanged ([return nil, err]), and values it allocates
    itself with [fmt.Errorf].  The model keeps the allocation site, as
    the Go value does through its address. *)

Inductive library : Type := net_http | encoding_json | go_ole.

Inductive error : Type :=
  | LibError (origin : library) (msg : string)
  | ErrorString (msg : string).

Definition Error (e : error) : string :=
  match e with
  | LibError _ msg => msg
  | ErrorString msg => msg
  end.

(** ** fmt.Sprintf

    The verbs the program uses: [%s] and [%v] on a string or an error
    print the text; [%%] prints a percent sign.  A verb with no operand
    left prints Go's [%!v(MISSING)].  Operands are never scanned for
    verbs.  Other verbs do not occur in the program; they are rendered
    here as Go renders a verb that does not apply to a string. *)

Inductive operand : Type :=
  | Str (s : string)
  | Err (e : error).

Definition operand_text (a : operand) : string :=
  match a with
  | Str s => s
  | Err e => Error e
  end.

Definition is_text_verb (v : ascii) : bool :=
  (Ascii.eqb v "s" || Ascii.eqb v "v")%char.

Definition format_verb (v : ascii) (a : operand) : string :=
  if is_text_verb v then operand_text a
  else "%!" ++ String v ("(string=" ++ operand_text a ++ ")").

Fixpoint Sprintf (format : string) (a : list operand) : string :=
  match format with
  | EmptyString => EmptyString
  | String c rest =>
      if Ascii.eqb c "%" then
        match rest with
        | EmptyString => "%!(NOVERB)"
        | String v rest' =>
            if Ascii.eqb v "%" then String "%" (Sprintf rest' a)
            else
              match a with
              | [] => "%!" ++ String v ("(MISSING)" ++ Sprintf rest' [])
              | x :: a' => format_verb v x ++ Sprintf rest' a'
              end
        end
      else String c (Sprintf rest a)
  end.

Definition Errorf (format : string) (a : list operand) : error :=
  ErrorString (Sprintf format a).

(** ** The platform notification API (go-ole)

    The four COM values [ShowNotification] holds are named after the
    variables that hold them. *)

Inductive object : Type := manager | managerDispatch | notifier | content.

Inductive param : Type :=
  | PInt (n : Z)
  | PDispatch (o : object).

Inductive ole_call : Type :=
  | CoInitialize (p : Z)
  | CoUninitialize
  | CreateObject (progID : string)
  | QueryInterface (o : object) (iid : string)
  | GetProperty (disp : object) (name : string)
  | CallMethod (disp : object) (name : string) (params : list param)
  | PutProperty (disp : object) (name : string) (value : string)
  | Release (o : object)
  | Clear (v : object).

(** ** The world and the process *)

Record Response : Type := mkResponse { Body : string }.

Record World : Type := mkWorld {
  Getenv : string -> string;
  (** [http.Get url]: a response, or the text of the transport's error. *)
  http_Get : string -> Response + string;
  (** [json.NewDecoder(body).Decode(&v)]: the value left in [v], which
      may be partly filled when decoding fails, and the decoder's error
      text if it failed. *)
  json_Decode : string -> Envelope -> Envelope * option string;
  (** The answer of a go-ole call: [None] when it succeeds, the text of
      its error otherwise. *)
  ole : ole_call -> option string
}.

Inductive event : Type :=
  | EvHttpGet (url : string)
  | EvBodyClose
  | EvLog (line : string)
  | EvOle (c : ole_call) (err : option string)
  | EvExtractURL (message : ptr TelegramMsg)
  | EvShowNotification (title message url : string).

(** A deferred call of the running function, kept as data. *)
Inductive deferred : Type :=
  | DBodyClose
  | DOle (c : ole_call).

Record Proc : Type := mkProc {
  trace : list event;
  defers : list deferred
}.

Definition start : Proc := {| trace := []; defers := [] |}.

(** How a computation ends: with a value, by [os.Exit], or by a run-time
    panic. *)
Inductive result (A : Type) : Type :=
  | Val (a : A)
  | Exit (code : Z)
  | Panic (msg : string).
Arguments Val {A} a.
Arguments Exit {A} code.
Arguments Panic {A} msg.

Definition Go (A : Type) : Type := Proc -> result A * Proc.

Definition ret {A : Type} (a : A) : Go A := fun s => (Val a, s).

Definition bind {A B : Type} (m : Go A) (k : A -> Go B) : Go B :=
  fun s =>
    match m s with
    | (Val a, s') => k a s'
    | (Exit c, s') => (Exit c, s')
    | (Panic msg, s') => (Panic msg, s')
    end.

Declare Scope go_scope.
Delimit Scope go_scope with go.
Notation "x <- m ;; k" := (bind m (fun x => k))
  (at level 61, m at next level, right associativity) : go_scope.
Notation "m ;; k" := (bind m (fun _ => k))
  (at level 61, right associativity) : go_scope.
Local Open Scope go_scope.

Definition emit (e : event) : Go unit :=
  fun s => (Val tt, {| trace := trace s ++ [e]; defers := defers s |}).

Definition os_Exit {A : Type} (code : Z) : Go A := fun s => (Exit code, s).

Definition panic {A : Type} (msg : string) : Go A := fun s => (Panic msg, s).

(** [defer c]: push the call on the frame's stack. *)
Definition defer (d : deferred) : Go unit :=
  fun s => (Val tt, {| trace := trace s; defers := d :: defers s |}).

Definition run_deferred (d : deferred) : event :=
  match d with
  | DBodyClose => EvBodyClose
  | DOle c => EvOle c None
  end.

(** A function body runs in a frame of its own: its deferred calls run
    last-in first-out when it returns or panics, and not when the
    process exits; the caller's frame is then restored. *)
Definition func {A : Type} (body : Go A) : Go A :=
  fun s =>
    let '(r, s') := body {| trace := trace s; defers := [] |} in
    match r with
    | Exit c => (Exit c, {| trace := trace s'; defers := defers s |})
    | _ => (r, {| trace := trace s' ++ map run_deferred (defers s');
                  defers := defers s |})
    end.

(** [*p]: a nil pointer dereference panics. *)
Definition deref {A : Type} (p : ptr A) : Go A :=
  match p with
  | Some a => ret a
  | None => panic "runtime error: invalid memory address or nil pointer dereference"
  end.

(** [s[i]]: an index out of range panics. *)
Definition index {A : Type} (s : slice A) (i : Z) : Go A :=
  if (0 <=? i) && (i <? len s) then
    match nth_error (elems s) (Z.to_nat i) with
    | Some a => ret a
    | None => panic "runtime error: index out of range"
    end
  else panic "runtime error: index out of range".

Definition log_Println (line : string) : Go unit := emit (EvLog line).

Definition log_Fatalf {A : Type} (format : string) (a : list operand) : Go A :=
  emit (EvLog (Sprintf format a)) ;; os_Exit 1.

(** ** The program *)

Section Program.

Variable w : World.

(** The library calls, answered by the world. *)

Definition os_Getenv (key : string) : Go string := ret (Getenv w key).

Definition http_Get_ (url : string) : Go (Response * option error) :=
  emit (EvHttpGet url) ;;
  match http_Get w url with
  | inl resp => ret (resp, None)
  | inr msg => ret ({| Body := "" |}, Some (LibError net_http msg))
  end.

Definition json_Decode_ (body : string) (v : Envelope) : Go (Envelope * option error) :=
  let '(v', r) := json_Decode w body v in
  ret (v', option_map (LibError encoding_json) r).

Definition ole_ (c : ole_call) : Go (option error) :=
  emit (EvOle c (ole w c)) ;;
  ret (option_map (LibError go_ole) (ole w c)).

(** GetUpdates fetches updates from the Telegram bot (lines 36-57). *)
Definition GetUpdates (token : string) : Go (slice Update * option error) :=
  func (
    r <- http_Get_ (Sprintf "https://api.telegram.org/bot%s/getUpdates" [Str token]) ;;
    let '(resp, err) := r in
    match err with
    | Some err => ret (None, Some err)
    | None =>
        defer DBodyClose ;;
        let updates := zero_Envelope in
        d <- json_Decode_ (Body resp) updates ;;
        let '(updates, err) := d in
        match err with
        | Some err => ret (None, Some err)
        | None =>
            if negb (Ok updates) then
              ret (None, Some (Errorf "failed to get updates" []))
            else ret (Result updates, None)
        end
    end).

(** The [for _, entity := range] loop of [ExtractURL] (lines 62-66):
    [Some u] when the loop body returns [u], [None] when the range is
    exhausted. *)
Fixpoint range_Entities (entities : list Entity) : option string :=
  match entities with
  | [] => None
  | entity :: rest =>
      if String.eqb (Type_ entity) "url" then Some (URL entity)
      else range_Entities rest
  end.

(** ExtractURL extracts URL from a message (lines 60-69). *)
Definition ExtractURL (message : ptr TelegramMsg) : Go string :=
  emit (EvExtractURL message) ;;
  func (
    m <- deref message ;;
    match Entities m with
    | Some entities =>
        match range_Entities entities with
        | Some url => ret url
        | None => ret ""
        end
    | None => ret ""
    end).

(** The format of the toast document (lines 102-113). *)
Definition toast_format : string := "
    <toast>
        <visual>
            <binding template='ToastGeneric'>
                <text>%s</text>
                <text>%s</text>
            </binding>
        </visual>
        <actions>
            <action content='Open browser' arguments='%s' activationType='foreground'/>
        </actions>
    </toast>".

Definition toastXML (title message url : string) : string :=
  Sprintf toast_format [Str title; Str message; Str url].

(** ShowNotification creates and displays a toast notification
    (lines 72-133). *)
Definition ShowNotification (title message url : string) : Go (option error) :=
  emit (EvShowNotification title message url) ;;
  func (
    err <- ole_ (CoInitialize 0) ;;
    match err with
    | Some err => ret (Some (Errorf "failed to initialize OLE: %v" [Err err]))
    | None =>
    defer (DOle CoUninitialize) ;;
    err <- ole_ (CreateObject "Windows.UI.Notifications.ToastNotificationManager") ;;
    match err with
    | Some err => ret (Some (Errorf "failed to create ToastNotificationManager: %v" [Err err]))
    | None =>
    defer (DOle (Release manager)) ;;
    err <- ole_ (QueryInterface manager "IID_IDispatch") ;;
    match err with
    | Some err => ret (Some (Errorf "failed to query IDispatch: %v" [Err err]))
    | None =>
    defer (DOle (Release managerDispatch)) ;;
    err <- ole_ (GetProperty managerDispatch "ToastNotifier") ;;
    match err with
    | Some err => ret (Some (Errorf "failed to get ToastNotifier: %v" [Err err]))
    | None =>
    defer (DOle (Clear notifier)) ;;
    let toastXML := toastXML title message url in
    err <- ole_ (CallMethod managerDispatch "GetTemplateContent" [PInt 2]) ;;
    match err with
    | Some err => ret (Some (Errorf "failed to get template content: %v" [Err err]))
    | None =>
    defer (DOle (Clear content)) ;;
    err <- ole_ (PutProperty content "InnerXml" toastXML) ;;
    match err with
    | Some err => ret (Some (Errorf "failed to set inner XML: %v" [Err err]))
    | None =>
    err <- ole_ (CallMethod notifier "Show" [PDispatch content]) ;;
    match err with
    | Some err => ret (Some (Errorf "failed to show notification: %v" [Err err]))
    | None => ret None
    end end end end end end end).

(** main (lines 135-166). *)
Definition main : Go unit :=
  func (
    token <- os_Getenv "TELEGRAM_BOT_TOKEN" ;;
    r <- GetUpdates token ;;
    let '(updates, err) := r in
    match err with
    | Some err => log_Fatalf "Error fetching updates: %v
" [Err err]
    | None =>
    if len updates =? 0 then
      log_Println "No new messages."
    else
      lastUpdate <- index updates (len updates - 1) ;;
      match Message lastUpdate with
      | Some _ =>
          let message := Message lastUpdate in
          url <- ExtractURL message ;;
          if negb (String.eqb url "") then
            let title := "New Message" in
            m <- deref message ;;
            let content := Sprintf "You received a new message: %s" [Str (Text m)] in
            err <- ShowNotification title content url ;;
            match err with
            | Some err => log_Fatalf "Error showing notification: %v" [Err err]
            | None => ret tt
            end
          else log_Println "No URL found in the last message."
      | None => log_Println "No message in the last update."
      end
    end).

End Program.

(** ** Observations on a run *)

(** The exit status of the process: 0 when [main] returns, the argument
    of [os.Exit], 2 when the Go run time ends a panicking program. *)
Definition exit_status {A : Type} (r : result A) : Z :=
  match r with
  | Val _ => 0
  | Exit code => code
  | Panic _ => 2
  end.

Definition run (w : World) : result unit * Proc := main w start.

(** The calls of [ShowNotification] in a trace, in order. *)
Fixpoint notifier_calls (t : list event) : list (string * string * string) :=
  match t with
  | [] => []
  | EvShowNotification title message url :: t' =>
      (title, message, url) :: notifier_calls t'
  | _ :: t' => notifier_calls t'
  end.

Definition log_lines (t : list event) : list string :=
  flat_map (fun e => match e with EvLog l => [l] | _ => [] end) t.

(** The arguments [ExtractURL] was called with, in order. *)
Fixpoint extract_calls (t : list event) : list (ptr TelegramMsg) :=
  match t with
  | [] => []
  | EvExtractURL message :: t' => message :: extract_calls t'
  | _ :: t' => extract_calls t'
  end.

(** *** Platform resources

    What [ShowNotification] acquires from the platform and has to give
    back: the OLE initialisation of the thread and the four COM values. *)

Inductive resource : Type :=
  | OLE
  | Com (o : object).

Definition resource_eqb (a b : resource) : bool :=
  match a, b with
  | OLE, OLE => true
  | Com manager, Com manager => true
  | Com managerDispatch, Com managerDispatch => true
  | Com notifier, Com notifier => true
  | Com content, Com content => true
  | _, _ => false
  end.

(** The resource a successful call hands to the program: the variable
    its result is assigned to in [ShowNotification]. *)
Definition acquires (e : event) : option resource :=
  match e with
  | EvOle (CoInitialize _) None => Some OLE
  | EvOle (CreateObject _) None => Some (Com manager)
  | EvOle (QueryInterface _ _) None => Some (Com managerDispatch)
  | EvOle (GetProperty _ name) None =>
      if String.eqb name "ToastNotifier" then Some (Com notifier) else None
  | EvOle (CallMethod _ name _) None =>
      if String.eqb name "GetTemplateContent" then Some (Com content) else None
  | _ => None
  end.

Definition releases (e : event) : option resource :=
  match e with
  | EvOle CoUninitialize _ => Some OLE
  | EvOle (Release o) _ => Some (Com o)
  | EvOle (Clear v) _ => Some (Com v)
  | _ => None
  end.

Definition is_some_resource (r : resource) (x : option resource) : bool :=
  match x with
  | Some r' => resource_eqb r r'
  | None => false
  end.

Definition count_acquired (r : resource) (t : list event) : nat :=
  length (filter (fun e => is_some_resource r (acquires e)) t).

Definition count_released (r : resource) (t : list event) : nat :=
  length (filter (fun e => is_some_resource r (releases e)) t).

(** The life of one resource along a trace. *)
Inductive holding : Type := NotAcquired | Held | Released.

(** One event: acquiring is allowed once, from [NotAcquired]; releasing
    is allowed once, from [Held].  [None] is a breach: a second
    acquisition, a release of what is not held, a second release. *)
Definition hold_step (r : resource) (h : holding) (e : event) : option holding :=
  if is_some_resource r (acquires e) then
    match h with
    | NotAcquired => Some Held
    | _ => None
    end
  else if is_some_resource r (releases e) then
    match h with
    | Held => Some Released
    | _ => None
    end
  else Some h.

Fixpoint lifecycle (r : resource) (h : holding) (t : list event) : option holding :=
  match t with
  | [] => Some h
  | e :: t' =>
      match hold_step r h e with
      | Some h' => lifecycle r h' t'
      | None => None
      end
  end.

(** [s] after the events [evs], in the same frame. *)
Definition extend (s : Proc) (evs : list event) : Proc :=
  {| trace := trace s ++ evs; defers := defers s |}.

(** The URL of the request [GetUpdates] sends for a token. *)
Definition getUpdates_url (token : string) : string :=
  "https://api.telegram.org/bot" ++ token ++ "/getUpdates".

(** The value [ExtractURL] computes from a message it can read: the
    body of the function after the pointer is followed. *)
Definition url_found (m : TelegramMsg) : string :=
  match Entities m with
  | Some entities =>
      match range_Entities entities with
      | Some url => url
      | None => ""
      end
  | None => ""
  end.

(** An entity of another kind than the URL kind. *)
Definition not_url (e : Entity) : Prop := Type_ e <> "url".

(** [GetUpdates] would return [updates] and no error in this world:
    the transport answers, the body decodes, and the envelope says ok. *)
Definition fetched (w : World) (updates : slice Update) : Prop :=
  exists resp env,
    http_Get w (getUpdates_url (Getenv w "TELEGRAM_BOT_TOKEN")) = inl resp
    /\ json_Decode w (Body resp) zero_Envelope = (env, None)
    /\ Ok env = true
    /\ Result env = updates.

(** ** A scripted world

    A test double for the libraries: one token in the environment, one
    body served at the token's URL, one decoding of that body, and a
    table of answers for the platform calls. *)
Definition scripted (token body : string) (decoded : Envelope * option string)
    (answers : ole_call -> option string) : World :=
  {| Getenv := fun key =>
       if String.eqb key "TELEGRAM_BOT_TOKEN" then token else "";
     http_Get := fun url =>
       if String.eqb url (getUpdates_url token) then inl {| Body := body |}
       else inr "no such host";
     json_Decode := fun b v =>
       if String.eqb b body then decoded
       else (v, Some "unexpected end of JSON input");
     ole := answers |}.

Definition all_succeed : ole_call -> option string := fun _ => None.

Definition url_entity (u : string) : Entity :=
  {| Type_ := "url"; Offset := 0; Length := Z.of_nat (String.length u); URL := u |}.

Definition bold_entity : Entity :=
  {| Type_ := "bold"; Offset := 0; Length := 4; URL := "" |}.

(** The discipline of a resource over the events of one call: it is
    acquired at most once; if it is acquired it is released, once and
    after the acquisition; if it is not acquired nothing releases it. *)
Definition released_once (r : resource) (evs : list event) : Prop :=
  lifecycle r NotAcquired evs
  = Some (if (count_acquired r evs =? 0)%nat then NotAcquired else Released)
  /\ (count_acquired r evs <= 1)%nat
  /\ count_released r evs = count_acquired r evs.

Definition is_ole_event (e : event) : Prop :=
  match e with
  | EvOle _ _ => True
  | _ => False
  end.

(** The events of a fetch that reaches the decoder. *)
Definition fetch_events (w : World) : list event :=
  [EvHttpGet (getUpdates_url (Getenv w "TELEGRAM_BOT_TOKEN")); EvBodyClose].

(** [main] returned normally after writing the one log line [line],
    and [ShowNotification] was never entered. *)
Definition quiet_exit (w : World) (line : string) : Prop :=
  fst (run w) = Val tt
  /\ exit_status (fst (run w)) = 0
  /\ notifier_calls (trace (snd (run w))) = []
  /\ log_lines (trace (snd (run w))) = [line].

(** A world whose API answers with the given result list, flagged ok. *)
Definition serving (result : slice Update) (answers : ole_call -> option string)
    : World :=
  scripted "t0k" "{}" ({| Ok := true; Result := result |}, None) answers.

Definition hello_msg : TelegramMsg :=
  {| MessageID := 10; Text := "hello";
     Entities := Some [url_entity "http://x.test"] |}.

Definition other_msg : TelegramMsg :=
  {| MessageID := 11; Text := "other";
     Entities := Some [url_entity "http://y.test"] |}.

Definition plain_msg : TelegramMsg :=
  {| MessageID := 12; Text := "plain"; Entities := None |}.

(** A message whose first URL entity has no URL and whose second has. *)
Definition shadowed_msg : TelegramMsg :=
  {| MessageID := 13; Text := "twice";
     Entities := Some [bold_entity; url_entity ""; url_entity "https://b.example"] |}.

(** ** Reading a toast document

    What a payload means to the platform is the XML document it spells.
    [Xml.read] reads the part of XML 1.0 a toast uses: elements with
    attributes in single or double quotes, character data, and the five
    predefined entity references.  It refuses what XML refuses there: a
    [<] inside character data or inside an attribute value that does not
    open a tag, an [&] that opens no reference, unbalanced tags, a
    repeated attribute, text outside the root element.  (Comments,
    CDATA sections, processing instructions and numeric character
    references are not read.)  White space between the elements of an
    element that has child elements is dropped. *)

Module Xml.

#[warnings="-register-all"]
Inductive node : Type :=
  | Chars (s : string)
  | Elem (name : string) (attrs : list (string * string)) (children : list node).

Definition is_space (c : ascii) : bool :=
  ((c =? " ") || (c =? "009") || (c =? "010") || (c =? "013"))%char.

Definition is_name_start (c : ascii) : bool :=
  ((("a" <=? c) && (c <=? "z")) || (("A" <=? c) && (c <=? "Z"))
   || (c =? "_") || (c =? ":"))%char.

Definition is_name_char (c : ascii) : bool :=
  (is_name_start c || (("0" <=? c) && (c <=? "9")) || (c =? "-") || (c =? "."))%char.

Fixpoint skip_spaces (s : string) : string :=
  match s with
  | String c r => if is_space c then skip_spaces r else s
  | EmptyString => s
  end.

(** [strip p s]: what follows [p] in [s], when [s] starts with [p]. *)
Fixpoint strip (p s : string) : option string :=
  match p, s with
  | EmptyString, _ => Some s
  | String a p', String b s' => if (a =? b)%char then strip p' s' else None
  | String _ _, EmptyString => None
  end.

Fixpoint read_name_chars (s : string) : string * string :=
  match s with
  | String c r =>
      if is_name_char c then
        let '(n, r') := read_name_chars r in (String c n, r')
      else (EmptyString, s)
  | EmptyString => (EmptyString, s)
  end.

Definition read_name (s : string) : option (string * string) :=
  match s with
  | String c _ => if is_name_start c then Some (read_name_chars s) else None
  | EmptyString => None
  end.

(** After an [&]: one of the five predefined references. *)
Definition read_reference (s : string) : option (ascii * string) :=
  match strip "lt;" s with Some r => Some ("<"%char, r) | None =>
  match strip "gt;" s with Some r => Some (">"%char, r) | None =>
  match strip "amp;" s with Some r => Some ("&"%char, r) | None =>
  match strip "apos;" s with Some r => Some ("'"%char, r) | None =>
  match strip "quot;" s with Some r => Some ("034"%char, r) | None => None
  end end end end end.

(** Character data up to, and not including, the first [stop]
    character; [<] ends character data and is refused inside an
    attribute value. *)
Fixpoint read_chars (fuel : nat) (stop : ascii) (s : string) : option (string * string) :=
  match fuel with
  | O => None
  | S fuel' =>
      match s with
      | EmptyString => Some (EmptyString, s)
      | String c r =>
          if (c =? stop)%char then Some (EmptyString, s)
          else if (c =? "<")%char then None
          else if (c =? "&")%char then
            match read_reference r with
            | Some (x, r') =>
                match read_chars fuel' stop r' with
                | Some (t, r'') => Some (String x t, r'')
                | None => None
                end
            | None => None
            end
          else
            match read_chars fuel' stop r with
            | Some (t, r') => Some (String c t, r')
            | None => None
            end
      end
  end.

Definition has_attr (name : string) (attrs : list (string * string)) : bool :=
  existsb (fun a => String.eqb (fst a) name) attrs.

(** One step of reading the attributes of a start tag, up to its [>]
    or [/>]; [more] reads the attributes after the one read here. *)
Definition attrs_step
    (more : list (string * string) -> string
            -> option (list (string * string) * string))
    (seen : list (string * string)) (s : string)
    : option (list (string * string) * string) :=
  let s1 := skip_spaces s in
  match s1 with
  | EmptyString => None
  | String c _ =>
      if ((c =? ">") || (c =? "/"))%char then Some (rev seen, s1)
      else
        match read_name s1 with
        | None => None
        | Some (name, s2) =>
            match strip "=" (skip_spaces s2) with
            | None => None
            | Some s3 =>
                match skip_spaces s3 with
                | String q s4 =>
                    if ((q =? "'") || (q =? "034"))%char then
                      match read_chars (S (String.length s4)) q s4 with
                      | Some (value, String _ s5) =>
                          if has_attr name seen then None
                          else more ((name, value) :: seen) s5
                      | _ => None
                      end
                    else None
                | EmptyString => None
                end
            end
        end
  end.

Fixpoint read_attrs (fuel : nat) (seen : list (string * string)) (s : string)
    : option (list (string * string) * string) :=
  match fuel with
  | O => None
  | S fuel' => attrs_step (read_attrs fuel') seen s
  end.

Definition is_elem (n : node) : bool :=
  match n with
  | Elem _ _ _ => true
  | Chars _ => false
  end.

Fixpoint all_spaces (s : string) : bool :=
  match s with
  | EmptyString => true
  | String c r => is_space c && all_spaces r
  end.

Definition is_blank (n : node) : bool :=
  match n with
  | Chars s => all_spaces s
  | Elem _ _ _ => false
  end.

Definition tidy (children : list node) : list node :=
  if existsb is_elem children then filter (fun n => negb (is_blank n)) children
  else children.

(** One element, from its [<]; [content] reads the children, up to
    the end tag. *)
Definition element_step
    (content : string -> option (list node * string)) (s : string)
    : option (node * string) :=
  match strip "<" s with
  | None => None
  | Some s1 =>
      match read_name s1 with
      | None => None
      | Some (name, s2) =>
          match read_attrs (S (String.length s2)) [] s2 with
          | None => None
          | Some (attrs, s3) =>
              match strip "/>" s3 with
              | Some s4 => Some (Elem name attrs [], s4)
              | None =>
                  match strip ">" s3 with
                  | None => None
                  | Some s4 =>
                      match content s4 with
                      | None => None
                      | Some (children, s5) =>
                          match strip ("</" ++ name) s5 with
                          | None => None
                          | Some s6 =>
                              match strip ">" (skip_spaces s6) with
                              | None => None
                              | Some s7 =>
                                  Some (Elem name attrs (tidy children), s7)
                              end
                          end
                      end
                  end
              end
          end
      end
  end.

(** The children of an element, up to its end tag: [element] reads a
    child element, [content] the children after the one read here. *)
Definition content_step
    (element : string -> option (node * string))
    (content : string -> option (list node * string)) (s : string)
    : option (list node * string) :=
  match s with
  | EmptyString => None
  | String c _ =>
      if (c =? "<")%char then
        match strip "</" s with
        | Some _ => Some ([], s)
        | None =>
            match element s with
            | None => None
            | Some (e, s1) =>
                match content s1 with
                | None => None
                | Some (rest, s2) => Some (e :: rest, s2)
                end
            end
        end
      else
        match read_chars (S (String.length s)) "<" s with
        | None => None
        | Some (t, s1) =>
            match content s1 with
            | None => None
            | Some (rest, s2) => Some (Chars t :: rest, s2)
            end
        end
  end.

Fixpoint read_element (fuel : nat) (s : string) : option (node * string) :=
  match fuel with
  | O => None
  | S fuel' => element_step (read_content fuel') s
  end
with read_content (fuel : nat) (s : string) : option (list node * string) :=
  match fuel with
  | O => None
  | S fuel' => content_step (read_element fuel') (read_content fuel') s
  end.

(** A document: one root element, white space around it allowed. *)
Definition read (s : string) : option node :=
  match read_element (S (String.length s)) (skip_spaces s) with
  | Some (root, rest) =>
      match skip_spaces rest with
      | EmptyString => Some root
      | String _ _ => None
      end
  | None => None
  end.

End Xml.

(** The document [ShowNotification] means to show: two lines of text
    and one action whose [arguments] attribute is the URL. *)
Definition text_of (s : string) : list Xml.node :=
  match s with
  | EmptyString => []
  | String _ _ => [Xml.Chars s]
  end.

Definition intended_toast (title message url : string) : Xml.node :=
  Xml.Elem "toast" []
    [ Xml.Elem "visual" []
        [ Xml.Elem "binding" [("template", "ToastGeneric")]
            [ Xml.Elem "text" [] (text_of title);
              Xml.Elem "text" [] (text_of message) ] ];
      Xml.Elem "actions" []
        [ Xml.Elem "action"
            [ ("content", "Open browser");
              ("arguments", url);
              ("activationType", "foreground") ] [] ] ].

(** A string with none of [<], [&] and [stop] in it. *)
Fixpoint plain_for (stop : ascii) (s : string) : Prop :=
  match s with
  | EmptyString => True
  | String c r =>
      (c =? stop)%char = false /\ (c =? "<")%char = false
      /\ (c =? "&")%char = false /\ plain_for stop r
  end.

(** The four fixed stretches of [toast_format], around its three verbs. *)
Definition toast_before_title : string := "
    <toast>
        <visual>
            <binding template='ToastGeneric'>
                <text>".

Definition toast_between_texts : string := "</text>
                <text>".

Definition toast_before_url : string := "</text>
            </binding>
        </visual>
        <actions>
            <action content='Open browser' arguments='".

Definition toast_after_url : string := "' activationType='foreground'/>
        </actions>
    </toast>".

(** The five platform calls before [PutProperty] succeed. *)
Definition template_obtained (w : World) : Prop :=
  ole w (CoInitialize 0) = None
  /\ ole w (CreateObject "Windows.UI.Notifications.ToastNotificationManager") = None
  /\ ole w (QueryInterface manager "IID_IDispatch") = None
  /\ ole w (GetProperty managerDispatch "ToastNotifier") = None
  /\ ole w (CallMethod managerDispatch "GetTemplateContent" [PInt 2]) = None.

(** ** More observations *)

Definition newline : string := String "010" EmptyString.

(** The URLs requested with [http.Get], in order. *)
Definition http_requests (t : list event) : list string :=
  flat_map (fun e => match e with EvHttpGet u => [u] | _ => [] end) t.

(** How often a response body was closed. *)
Definition body_closes (t : list event) : nat :=
  length (filter (fun e => match e with EvBodyClose => true | _ => false end) t).

(** What [ExtractURL] reads of an entity. *)
Definition kind_and_url (e : Entity) : string * string := (Type_ e, URL e).

Definition is_url (e : Entity) : bool := String.eqb (Type_ e) "url".

(** The seven platform calls of [ShowNotification] that can fail, in
    the order of the source, each with the text its failure is reported
    under. *)
Definition notification_steps (title message url : string)
    : list (ole_call * string) :=
  [ (CoInitialize 0, "failed to initialize OLE: ");
    (CreateObject "Windows.UI.Notifications.ToastNotificationManager",
     "failed to create ToastNotificationManager: ");
    (QueryInterface manager "IID_IDispatch", "failed to query IDispatch: ");
    (GetProperty managerDispatch "ToastNotifier", "failed to get ToastNotifier: ");
    (CallMethod managerDispatch "GetTemplateContent" [PInt 2],
     "failed to get template content: ");
    (PutProperty content "InnerXml" (toastXML title message url),
     "failed to set inner XML: ");
    (CallMethod notifier "Show" [PDispatch content],
     "failed to show notification: ") ].

Definition succeeds (w : World) (step : ole_call * string) : Prop :=
  ole w (fst step) = None.

Definition is_release (c : ole_call) : bool :=
  match c with
  | CoUninitialize | Release _ | Clear _ => true
  | _ => false
  end.

(** The platform calls of a trace that are not releases, in order. *)
Definition attempts (t : list event) : list ole_call :=
  flat_map (fun e => match e with
                     | EvOle c _ => if is_release c then [] else [c]
                     | _ => []
                     end) t.

(** The resources acquired, and the resources released, in the order
    of the trace. *)
Definition acquired_in_order (t : list event) : list resource :=
  flat_map (fun e => match acquires e with Some r => [r] | None => [] end) t.

Definition released_in_order (t : list event) : list resource :=
  flat_map (fun e => match releases e with Some r => [r] | None => [] end) t.

(** What [main] passes to [ShowNotification] for a message. *)
Definition notification_body (m : TelegramMsg) : string :=
  "You received a new message: " ++ Text m.

(** A platform that refuses the [IDispatch] interface. *)
Definition refusing_interface : ole_call -> option string :=
  fun c => match c with
           | QueryInterface _ _ => Some "E_NOINTERFACE"
           | _ => None
           end.

(** The five ways a run of [main] goes, with all it leaves behind. *)
Inductive main_run (w : World) : result unit -> list event -> Prop :=
  | run_fetch_failed (e : error) (closed : list event) :
      closed = [] \/ closed = [EvBodyClose] ->
      main_run w (Exit 1)
        (EvHttpGet (getUpdates_url (Getenv w "TELEGRAM_BOT_TOKEN"))
         :: closed
         ++ [EvLog ("Error fetching updates: " ++ Error e ++ newline)])
  | run_no_updates :
      main_run w (Val tt) (fetch_events w ++ [EvLog "No new messages."])
  | run_no_message :
      main_run w (Val tt)
        (fetch_events w ++ [EvLog "No message in the last update."])
  | run_no_url (m : TelegramMsg) :
      main_run w (Val tt)
        (fetch_events w
         ++ [EvExtractURL (Some m); EvLog "No URL found in the last message."])
  | run_notified (m : TelegramMsg) (err : option error) (evs : list event) :
      url_found m <> "" ->
      Forall is_ole_event evs ->
      main_run w
        (match err with None => Val tt | Some _ => Exit 1 end)
        (fetch_events w
         ++ EvExtractURL (Some m)
            :: EvShowNotification "New Message" (notification_body m) (url_found m)
            :: evs
            ++ match err with
               | None => []
               | Some e => [EvLog ("Error showing notification: " ++ Error e)]
               end).

(** * Properties *)

Lemma extend_nil (s : Proc) : extend s [] = s.
Proof. destruct s; unfold extend; simpl; now rewrite app_nil_r. Qed.

Lemma extend_extend (s : Proc) (a b : list event) :
  extend (extend s a) b = extend s (a ++ b).
Proof. unfold extend; simpl; now rewrite app_assoc. Qed.

Lemma string_app_nil_r (a : string) : a ++ "" = a.
Proof. induction a as [|x a IH]; simpl; [reflexivity | now rewrite IH]. Qed.

Lemma Sprintf_getUpdates (token : string) :
  Sprintf "https://api.telegram.org/bot%s/getUpdates" [Str token]
  = getUpdates_url token.
Proof. reflexivity. Qed.

(** ** GetUpdates *)

Section GetUpdates_facts.

Variable w : World.

(** The three ways [GetUpdates] ends once the transport answered, and
    the one when it did not.  The response body is closed in the first
    three. *)
Lemma GetUpdates_transport_error (token msg : string) (s : Proc) :
  http_Get w (getUpdates_url token) = inr msg ->
  GetUpdates w token s
  = (Val (None, Some (LibError net_http msg)),
     extend s [EvHttpGet (getUpdates_url token)]).
Proof.
  intros H. unfold GetUpdates, func, http_Get_, bind, emit, ret.
  rewrite Sprintf_getUpdates, H. simpl.
  unfold extend. now rewrite app_nil_r.
Qed.

Lemma GetUpdates_decode_error (token msg : string) (resp : Response)
    (env : Envelope) (s : Proc) :
  http_Get w (getUpdates_url token) = inl resp ->
  json_Decode w (Body resp) zero_Envelope = (env, Some msg) ->
  GetUpdates w token s
  = (Val (None, Some (LibError encoding_json msg)),
     extend s [EvHttpGet (getUpdates_url token); EvBodyClose]).
Proof.
  intros H D.
  unfold GetUpdates, func, http_Get_, json_Decode_, bind, emit, ret, defer.
  rewrite Sprintf_getUpdates, H. simpl. rewrite D. simpl.
  unfold extend. now rewrite <- app_assoc.
Qed.

Lemma GetUpdates_decoded (token : string) (resp : Response)
    (env : Envelope) (s : Proc) :
  http_Get w (getUpdates_url token) = inl resp ->
  json_Decode w (Body resp) zero_Envelope = (env, None) ->
  GetUpdates w token s
  = (Val (if Ok env then (Result env, None)
          else (None, Some (Errorf "failed to get updates" []))),
     extend s [EvHttpGet (getUpdates_url token); EvBodyClose]).
Proof.
  intros H D.
  unfold GetUpdates, func, http_Get_, json_Decode_, bind, emit, ret, defer.
  rewrite Sprintf_getUpdates, H. simpl. rewrite D. simpl.
  unfold extend. destruct (Ok env); simpl; now rewrite <- app_assoc.
Qed.

End GetUpdates_facts.

(** C3: when the body decodes without error into an envelope whose [Ok]
    flag is false, [GetUpdates] returns the nil slice together with the
    error made by [fmt.Errorf("failed to get updates")]: an error is
    returned, and nothing of the envelope's result list is, whatever
    that list holds. *)
Theorem GetUpdates_not_ok_fails
    (w : World) (token : string) (resp : Response) (env : Envelope) (s : Proc) :
  http_Get w (getUpdates_url token) = inl resp ->
  json_Decode w (Body resp) zero_Envelope = (env, None) ->
  Ok env = false ->
  exists s',
    GetUpdates w token s
    = (Val (None, Some (ErrorString "failed to get updates")), s').
Proof.
  intros H D O. eexists.
  rewrite (GetUpdates_decoded w token resp env s H D), O. reflexivity.
Qed.

Lemma GetUpdates_not_ok_fails_witness :
  exists s',
    GetUpdates
      (scripted "t0k" "{}"
         ({| Ok := false;
             Result := Some [ {| UpdateID := 7; Message := None |} ] |}, None)
         all_succeed)
      "t0k" start
    = (Val (None, Some (ErrorString "failed to get updates")), s').
Proof.
  eapply GetUpdates_not_ok_fails; reflexivity.
Defined.



(** C6: when the body decodes without error into an envelope whose [Ok]
    flag is true, [GetUpdates] returns the envelope's [Result] slice
    itself (nil, empty or not) and no error: the same updates in the
    same order, so the last of the returned slice is the last of the
    result list. *)
Theorem GetUpdates_ok_returns_result
    (w : World) (token : string) (resp : Response) (env : Envelope) (s : Proc) :
  http_Get w (getUpdates_url token) = inl resp ->
  json_Decode w (Body resp) zero_Envelope = (env, None) ->
  Ok env = true ->
  exists updates s',
    GetUpdates w token s = (Val (updates, None), s')
    /\ updates = Result env
    /\ forall d, last (elems updates) d = last (elems (Result env)) d.
Proof.
  intros H D O. do 2 eexists. split; [|split].
  - rewrite (GetUpdates_decoded w token resp env s H D), O. reflexivity.
  - reflexivity.
  - reflexivity.
Qed.

Lemma GetUpdates_ok_returns_result_witness :
  exists updates s',
    GetUpdates
      (scripted "t0k" "{}"
         ({| Ok := true;
             Result := Some [ {| UpdateID := 1; Message := None |};
                              {| UpdateID := 2; Message := None |} ] |}, None)
         all_succeed)
      "t0k" start
    = (Val (updates, None), s')
    /\ updates = Some [ {| UpdateID := 1; Message := None |};
                        {| UpdateID := 2; Message := None |} ].
Proof.
  destruct (GetUpdates_ok_returns_result
              (scripted "t0k" "{}"
                 ({| Ok := true;
                     Result := Some [ {| UpdateID := 1; Message := None |};
                                      {| UpdateID := 2; Message := None |} ] |},
                  None)
                 all_succeed)
              "t0k" {| Body := "{}" |} _ start eq_refl eq_refl eq_refl)
    as (u & s' & R & E & _).
  exists u, s'. split; assumption.
Defined.

(** ** ExtractURL *)

Lemma range_Entities_skips (pre rest : list Entity) :
  Forall not_url pre ->
  range_Entities (pre ++ rest) = range_Entities rest.
Proof.
  induction 1 as [|x pre Hx _ IH]; simpl; [reflexivity|].
  destruct (String.eqb_spec (Type_ x) "url") as [E|_]; [|exact IH].
  now elim Hx.
Qed.

Lemma range_Entities_first (pre post : list Entity) (e : Entity) :
  Forall not_url pre ->
  Type_ e = "url" ->
  range_Entities (pre ++ e :: post) = Some (URL e).
Proof.
  intros Hpre He. rewrite (range_Entities_skips pre (e :: post) Hpre).
  simpl. now rewrite He.
Qed.

Lemma range_Entities_none (entities : list Entity) :
  Forall not_url entities ->
  range_Entities entities = None.
Proof.
  intros H. rewrite <- (app_nil_r entities).
  now rewrite (range_Entities_skips entities [] H).
Qed.

(** Whenever the loop returns, it returns the URL of an entity of the
    slice that has the URL kind and that no entity of that kind
    precedes. *)
Lemma range_Entities_some (entities : list Entity) (u : string) :
  range_Entities entities = Some u ->
  exists pre e post,
    entities = (pre ++ e :: post)%list /\ Forall not_url pre
    /\ Type_ e = "url" /\ URL e = u.
Proof.
  induction entities as [|x rest IH]; simpl; [discriminate|].
  destruct (String.eqb_spec (Type_ x) "url") as [E|N].
  - intros [= <-]. exists [], x, rest. repeat split; auto.
  - intros H. destruct (IH H) as (pre & e & post & -> & Hp & He & Hu).
    exists (x :: pre), e, post. repeat split; auto.
Qed.

Lemma ExtractURL_nonnil (m : TelegramMsg) (s : Proc) :
  ExtractURL (Some m) s
  = (Val (url_found m), extend s [EvExtractURL (Some m)]).
Proof.
  unfold ExtractURL, func, bind, emit, deref, ret, url_found, extend.
  simpl. destruct (Entities m) as [entities|]; simpl.
  - destruct (range_Entities entities); simpl; now rewrite app_nil_r.
  - now rewrite app_nil_r.
Qed.

Lemma ExtractURL_nil (s : Proc) :
  ExtractURL None s
  = (Panic "runtime error: invalid memory address or nil pointer dereference",
     extend s [EvExtractURL None]).
Proof.
  unfold ExtractURL, func, bind, emit, deref, panic, extend. simpl.
  now rewrite app_nil_r.
Qed.

(** C2: on a message [m], [ExtractURL] returns the [URL] field of the
    first entity, in the order of the slice, whose [Type] is "url":
    entities before it of other kinds are passed over and entities
    after it, of the URL kind or not, are not looked at.  It returns
    the empty string when the slice is nil, when it is empty, and when
    no entity has the URL kind. *)
Theorem ExtractURL_first_url_entity (m : TelegramMsg) (s : Proc) :
  (forall (pre post : list Entity) (e : Entity),
      Entities m = Some (pre ++ e :: post)%list ->
      Forall not_url pre ->
      Type_ e = "url" ->
      fst (ExtractURL (Some m) s) = Val (URL e))
  /\ (Entities m = None
      \/ Entities m = Some []
      \/ (exists entities,
            Entities m = Some entities /\ Forall not_url entities) ->
      fst (ExtractURL (Some m) s) = Val "").
Proof.
  rewrite ExtractURL_nonnil. unfold url_found. simpl. split.
  - intros pre post e -> Hpre He.
    now rewrite (range_Entities_first pre post e Hpre He).
  - intros [-> | [-> | (entities & -> & H)]]; try reflexivity.
    now rewrite (range_Entities_none entities H).
Qed.

Lemma ExtractURL_first_url_entity_witness :
  fst (ExtractURL
         (Some {| MessageID := 1; Text := "see";
                  Entities := Some [ bold_entity;
                                     url_entity "https://a.example";
                                     url_entity "https://b.example" ] |})
         start)
  = Val "https://a.example"
  /\ fst (ExtractURL
            (Some {| MessageID := 2; Text := "plain"; Entities := Some [] |})
            start)
     = Val "".
Proof.
  split.
  - apply (proj1 (ExtractURL_first_url_entity
                    {| MessageID := 1; Text := "see";
                       Entities := Some [ bold_entity;
                                          url_entity "https://a.example";
                                          url_entity "https://b.example" ] |}
                    start)
             [bold_entity] [url_entity "https://b.example"]
             (url_entity "https://a.example")).
    + reflexivity.
    + constructor; [discriminate | constructor].
    + reflexivity.
  - apply (proj2 (ExtractURL_first_url_entity
                    {| MessageID := 2; Text := "plain"; Entities := Some [] |}
                    start)).
    right; left; reflexivity.
Defined.

(** ** ShowNotification *)

Arguments toastXML : simpl never.

Ltac tidy_trace :=
  unfold extend; simpl; repeat rewrite <- app_assoc; simpl.

Ltac all_ole := repeat (constructor; try exact I).

Ltac each_resource :=
  let r := fresh "r" in
  intros r; destruct r as [|[]]; repeat split; vm_compute; try reflexivity;
  try lia.

(** Every call of [ShowNotification] returns to its caller, with the
    caller's frame intact; after the entry mark it leaves platform
    calls only, and those keep the discipline of every resource. *)
Lemma ShowNotification_returns (w : World) (title message url : string) (s : Proc) :
  exists err evs,
    ShowNotification w title message url s
    = (Val err, extend s (EvShowNotification title message url :: evs))
    /\ Forall is_ole_event evs
    /\ forall r, released_once r evs.
Proof.
  unfold ShowNotification, func, bind, ole_, emit, ret, defer. simpl.
  destruct (ole w (CoInitialize 0)) as [e1|]; simpl.
  { do 2 eexists. split; [tidy_trace; reflexivity|].
    split; [all_ole | each_resource]. }
  destruct (ole w (CreateObject _)) as [e2|]; simpl.
  { do 2 eexists. split; [tidy_trace; reflexivity|].
    split; [all_ole | each_resource]. }
  destruct (ole w (QueryInterface _ _)) as [e3|]; simpl.
  { do 2 eexists. split; [tidy_trace; reflexivity|].
    split; [all_ole | each_resource]. }
  destruct (ole w (GetProperty _ _)) as [e4|]; simpl.
  { do 2 eexists. split; [tidy_trace; reflexivity|].
    split; [all_ole | each_resource]. }
  destruct (ole w (CallMethod managerDispatch _ _)) as [e5|]; simpl.
  { do 2 eexists. split; [tidy_trace; reflexivity|].
    split; [all_ole | each_resource]. }
  destruct (ole w (PutProperty _ _ _)) as [e6|]; simpl.
  { do 2 eexists. split; [tidy_trace; reflexivity|].
    split; [all_ole | each_resource]. }
  destruct (ole w (CallMethod notifier _ _)) as [e7|]; simpl.
  { do 2 eexists. split; [tidy_trace; reflexivity|].
    split; [all_ole | each_resource]. }
  do 2 eexists. split; [tidy_trace; reflexivity|].
  split; [all_ole | each_resource].
Qed.

(** C7: on every path of [ShowNotification] -- whichever of its seven
    platform calls fails, or none -- the function returns to its caller
    and, by then, each of the five resources (the OLE initialisation,
    [manager], [managerDispatch], [notifier], [content]) that a
    successful call handed over has been released once, after it was
    acquired; what was not acquired is not released. *)
Theorem ShowNotification_releases_acquired
    (w : World) (title message url : string) (s : Proc) :
  exists err evs,
    ShowNotification w title message url s
    = (Val err, extend s (EvShowNotification title message url :: evs))
    /\ forall r, released_once r evs.
Proof.
  destruct (ShowNotification_returns w title message url s)
    as (err & evs & R & _ & D).
  exists err, evs. split; assumption.
Qed.

(** The path on which every call succeeds: the five resources are
    acquired in order and released in the reverse order. *)
Example ShowNotification_success_trace (title message url : string) :
  ShowNotification (serving None all_succeed) title message url start
  = (Val None,
     {| trace :=
          [ EvShowNotification title message url;
            EvOle (CoInitialize 0) None;
            EvOle (CreateObject "Windows.UI.Notifications.ToastNotificationManager") None;
            EvOle (QueryInterface manager "IID_IDispatch") None;
            EvOle (GetProperty managerDispatch "ToastNotifier") None;
            EvOle (CallMethod managerDispatch "GetTemplateContent" [PInt 2]) None;
            EvOle (PutProperty content "InnerXml" (toastXML title message url)) None;
            EvOle (CallMethod notifier "Show" [PDispatch content]) None;
            EvOle (Clear content) None;
            EvOle (Clear notifier) None;
            EvOle (Release managerDispatch) None;
            EvOle (Release manager) None;
            EvOle CoUninitialize None ];
        defers := [] |}).
Proof. reflexivity. Qed.

(** A path that fails midway: [QueryInterface] fails, so the OLE
    initialisation and [manager] are released and nothing else is. *)
Example ShowNotification_query_failure_trace (title message url : string) :
  ShowNotification
    (serving None (fun c => match c with
                            | QueryInterface _ _ => Some "E_NOINTERFACE"
                            | _ => None
                            end))
    title message url start
  = (Val (Some (ErrorString "failed to query IDispatch: E_NOINTERFACE")),
     {| trace :=
          [ EvShowNotification title message url;
            EvOle (CoInitialize 0) None;
            EvOle (CreateObject "Windows.UI.Notifications.ToastNotificationManager") None;
            EvOle (QueryInterface manager "IID_IDispatch") (Some "E_NOINTERFACE");
            EvOle (Release manager) None;
            EvOle CoUninitialize None ];
        defers := [] |}).
Proof. reflexivity. Qed.

(** ** main *)

Lemma index_last {A : Type} (init : list A) (x : A) (updates : slice A) (s : Proc) :
  elems updates = (init ++ [x])%list ->
  index updates (len updates - 1) s = (Val x, s).
Proof.
  intros E. unfold index, len. rewrite E, length_app. simpl.
  replace (Z.of_nat (length init + 1) - 1) with (Z.of_nat (length init)) by lia.
  rewrite Nat2Z.id.
  replace ((0 <=? Z.of_nat (length init))
           && (Z.of_nat (length init) <? Z.of_nat (length init + 1))) with true
    by (symmetry; apply andb_true_intro; split;
        [apply Z.leb_le | apply Z.ltb_lt]; lia).
  rewrite nth_error_app2 by lia. rewrite Nat.sub_diag. reflexivity.
Qed.

Lemma len_last_nonzero {A : Type} (init : list A) (x : A) (updates : slice A) :
  elems updates = (init ++ [x])%list ->
  (len updates =? 0) = false.
Proof.
  intros E. unfold len. rewrite E, length_app. simpl.
  apply Z.eqb_neq. lia.
Qed.

Lemma Sprintf_new_message (t : string) :
  Sprintf "You received a new message: %s" [Str t]
  = "You received a new message: " ++ t.
Proof. simpl. unfold format_verb. simpl. now rewrite string_app_nil_r. Qed.

Lemma Sprintf_error_showing (e : error) :
  Sprintf "Error showing notification: %v" [Err e]
  = "Error showing notification: " ++ Error e.
Proof. simpl. unfold format_verb. simpl. now rewrite string_app_nil_r. Qed.

Arguments Sprintf : simpl never.

Section main_facts.

Variable w : World.

Lemma main_transport_error (msg : string) (s : Proc) :
  http_Get w (getUpdates_url (Getenv w "TELEGRAM_BOT_TOKEN")) = inr msg ->
  exists line,
    main w s
    = (Exit 1,
       extend s [EvHttpGet (getUpdates_url (Getenv w "TELEGRAM_BOT_TOKEN"));
                 EvLog line]).
Proof.
  intros H. unfold main, func, bind, os_Getenv, ret.
  rewrite (GetUpdates_transport_error w _ msg _ H).
  eexists. unfold log_Fatalf, bind, emit, os_Exit, extend. simpl.
  rewrite <- app_assoc. reflexivity.
Qed.

Lemma main_decode_error (resp : Response) (env : Envelope) (msg : string)
    (s : Proc) :
  http_Get w (getUpdates_url (Getenv w "TELEGRAM_BOT_TOKEN")) = inl resp ->
  json_Decode w (Body resp) zero_Envelope = (env, Some msg) ->
  exists line, main w s = (Exit 1, extend s (fetch_events w ++ [EvLog line])).
Proof.
  intros H D. unfold main, func, bind, os_Getenv, ret.
  rewrite (GetUpdates_decode_error w _ msg resp env _ H D).
  eexists. unfold log_Fatalf, bind, emit, os_Exit, extend. simpl.
  rewrite <- app_assoc. reflexivity.
Qed.

Lemma main_not_ok (resp : Response) (env : Envelope) (s : Proc) :
  http_Get w (getUpdates_url (Getenv w "TELEGRAM_BOT_TOKEN")) = inl resp ->
  json_Decode w (Body resp) zero_Envelope = (env, None) ->
  Ok env = false ->
  exists line, main w s = (Exit 1, extend s (fetch_events w ++ [EvLog line])).
Proof.
  intros H D O. unfold main, func, bind, os_Getenv, ret.
  rewrite (GetUpdates_decoded w _ resp env _ H D), O.
  eexists. unfold log_Fatalf, bind, emit, os_Exit, extend. simpl.
  rewrite <- app_assoc. reflexivity.
Qed.

Lemma main_no_updates (updates : slice Update) (s : Proc) :
  fetched w updates ->
  len updates = 0 ->
  main w s = (Val tt, extend s (fetch_events w ++ [EvLog "No new messages."])).
Proof.
  intros (resp & env & H & D & O & R) L.
  unfold main, func, bind, os_Getenv, ret.
  rewrite (GetUpdates_decoded w _ resp env _ H D), O, R.
  simpl. rewrite L. simpl. unfold extend. simpl.
  now rewrite app_nil_r, <- app_assoc.
Qed.

Lemma main_no_message (updates : slice Update) (init : list Update)
    (lastUpdate : Update) (s : Proc) :
  fetched w updates ->
  elems updates = (init ++ [lastUpdate])%list ->
  Message lastUpdate = None ->
  main w s
  = (Val tt,
     extend s (fetch_events w ++ [EvLog "No message in the last update."])).
Proof.
  intros (resp & env & H & D & O & R) E M.
  unfold main, func, bind, os_Getenv, ret.
  rewrite (GetUpdates_decoded w _ resp env _ H D), O, R.
  simpl. rewrite (len_last_nonzero init lastUpdate updates E).
  rewrite (index_last init lastUpdate updates _ E), M.
  simpl. unfold extend. simpl.
  now rewrite app_nil_r, <- app_assoc.
Qed.

Lemma main_no_url (updates : slice Update) (init : list Update)
    (lastUpdate : Update) (m : TelegramMsg) (s : Proc) :
  fetched w updates ->
  elems updates = (init ++ [lastUpdate])%list ->
  Message lastUpdate = Some m ->
  url_found m = "" ->
  main w s
  = (Val tt,
     extend s (fetch_events w
               ++ [EvExtractURL (Some m);
                   EvLog "No URL found in the last message."])).
Proof.
  intros (resp & env & H & D & O & R) E M U.
  unfold main, func, bind, os_Getenv, ret.
  rewrite (GetUpdates_decoded w _ resp env _ H D), O, R.
  simpl. rewrite (len_last_nonzero init lastUpdate updates E).
  rewrite (index_last init lastUpdate updates _ E), M.
  rewrite ExtractURL_nonnil, U.
  simpl. unfold extend. simpl.
  now rewrite app_nil_r, <- !app_assoc.
Qed.

Lemma main_notifies (updates : slice Update) (init : list Update)
    (lastUpdate : Update) (m : TelegramMsg) (s : Proc) :
  fetched w updates ->
  elems updates = (init ++ [lastUpdate])%list ->
  Message lastUpdate = Some m ->
  url_found m <> "" ->
  exists err evs,
    Forall is_ole_event evs
    /\ main w s
       = (match err with
          | None => Val tt
          | Some _ => Exit 1
          end,
          extend s
            (fetch_events w
             ++ EvExtractURL (Some m)
                :: EvShowNotification "New Message"
                     ("You received a new message: " ++ Text m) (url_found m)
                :: evs
                ++ match err with
                   | None => []
                   | Some e => [EvLog ("Error showing notification: " ++ Error e)]
                   end)).
Proof.
  intros (resp & env & H & D & O & R) E M U.
  unfold main, func, bind, os_Getenv, ret.
  rewrite (GetUpdates_decoded w _ resp env _ H D), O, R.
  simpl. rewrite (len_last_nonzero init lastUpdate updates E).
  rewrite (index_last init lastUpdate updates _ E), M.
  rewrite ExtractURL_nonnil.
  apply String.eqb_neq in U. rewrite U. simpl.
  match goal with
  | |- context [ShowNotification w ?a ?b ?c ?st] =>
      destruct (ShowNotification_returns w a b c st) as (err & evs & -> & F & _)
  end.
  exists err, evs. split; [exact F|].
  rewrite Sprintf_new_message.
  destruct err as [e|]; unfold log_Fatalf, bind, emit, os_Exit, extend, fetch_events; simpl.
  - rewrite Sprintf_error_showing. rewrite <- !app_assoc. reflexivity.
  - rewrite !app_nil_r, <- !app_assoc. reflexivity.
Qed.

End main_facts.

(** *** Reading a trace *)

Lemma notifier_calls_app (a b : list event) :
  notifier_calls (a ++ b) = (notifier_calls a ++ notifier_calls b)%list.
Proof.
  induction a as [|e a IH]; simpl; [reflexivity|].
  destruct e; simpl; now rewrite IH.
Qed.

Lemma extract_calls_app (a b : list event) :
  extract_calls (a ++ b) = (extract_calls a ++ extract_calls b)%list.
Proof.
  induction a as [|e a IH]; simpl; [reflexivity|].
  destruct e; simpl; now rewrite IH.
Qed.

Lemma log_lines_app (a b : list event) :
  log_lines (a ++ b) = (log_lines a ++ log_lines b)%list.
Proof. unfold log_lines. apply flat_map_app. Qed.

Lemma ole_events_silent (evs : list event) :
  Forall is_ole_event evs ->
  notifier_calls evs = [] /\ extract_calls evs = [] /\ log_lines evs = [].
Proof.
  induction 1 as [|e evs He _ IH]; [now repeat split|].
  destruct e; simpl in He; try contradiction. exact IH.
Qed.

(** C1: when the fetch returns a list whose last element, by position,
    carries a message [m] from which [ExtractURL] returns a non-empty
    [u], [main] calls [ExtractURL] on that message alone and enters
    [ShowNotification] exactly once, with the title "New Message", the
    body "You received a new message: " followed by the text of [m],
    and the URL [u]; the elements before the last play no part. *)
Theorem main_notifies_last_update
    (w : World) (updates : slice Update) (init : list Update)
    (lastUpdate : Update) (m : TelegramMsg) (t u : string) :
  fetched w updates ->
  elems updates = (init ++ [lastUpdate])%list ->
  Message lastUpdate = Some m ->
  Text m = t ->
  fst (ExtractURL (Some m) start) = Val u ->
  u <> "" ->
  extract_calls (trace (snd (run w))) = [Some m]
  /\ notifier_calls (trace (snd (run w)))
     = [("New Message", "You received a new message: " ++ t, u)].
Proof.
  intros F E M T X U.
  rewrite ExtractURL_nonnil in X. simpl in X. injection X as X.
  subst u t.
  destruct (main_notifies w updates init lastUpdate m start F E M U)
    as (err & evs & O & R).
  unfold run. rewrite R. unfold fetch_events. simpl.
  rewrite notifier_calls_app, extract_calls_app.
  destruct (ole_events_silent evs O) as (-> & -> & _).
  destruct err; simpl; split; reflexivity.
Qed.

Lemma serving_fetched (result : slice Update) (answers : ole_call -> option string) :
  fetched (serving result answers) result.
Proof.
  exists {| Body := "{}" |}, {| Ok := true; Result := result |}.
  repeat split; reflexivity.
Qed.

Lemma main_notifies_last_update_witness :
  extract_calls
    (trace (snd (run (serving
                        (Some [ {| UpdateID := 9; Message := Some other_msg |};
                                {| UpdateID := 3; Message := Some hello_msg |} ])
                        all_succeed))))
  = [Some hello_msg]
  /\ notifier_calls
       (trace (snd (run (serving
                           (Some [ {| UpdateID := 9; Message := Some other_msg |};
                                   {| UpdateID := 3; Message := Some hello_msg |} ])
                           all_succeed))))
     = [("New Message", "You received a new message: hello", "http://x.test")].
Proof.
  apply (main_notifies_last_update
           (serving
              (Some [ {| UpdateID := 9; Message := Some other_msg |};
                      {| UpdateID := 3; Message := Some hello_msg |} ])
              all_succeed)
           (Some [ {| UpdateID := 9; Message := Some other_msg |};
                   {| UpdateID := 3; Message := Some hello_msg |} ])
           [ {| UpdateID := 9; Message := Some other_msg |} ]
           {| UpdateID := 3; Message := Some hello_msg |}
           hello_msg "hello" "http://x.test").
  - apply serving_fetched.
  - reflexivity.
  - reflexivity.
  - reflexivity.
  - reflexivity.
  - discriminate.
Defined.

Lemma quiet_exit_intro (w : World) (evs : list event) (line : string) :
  main w start = (Val tt, extend start (fetch_events w ++ evs ++ [EvLog line])) ->
  Forall (fun e => exists p, e = EvExtractURL p) evs ->
  quiet_exit w line.
Proof.
  intros R Q. unfold quiet_exit, run. rewrite R. unfold fetch_events. simpl.
  rewrite notifier_calls_app, log_lines_app. simpl.
  assert (notifier_calls evs = [] /\ log_lines evs = []) as [-> ->].
  { clear R. induction Q as [|e evs [p ->] _ IH]; [now split|]. exact IH. }
  now repeat split.
Qed.

(** C4: after a successful fetch, each of the three absences -- a list
    of length 0, a last update without a message, a last message from
    which [ExtractURL] returns the empty string -- makes [main] write
    its log line and return: the exit status is 0, [ShowNotification]
    is not entered, and [log.Fatalf] is not reached. *)
Theorem main_absences_exit_zero (w : World) (updates : slice Update) :
  fetched w updates ->
  (len updates = 0 -> quiet_exit w "No new messages.")
  /\ (forall (init : list Update) (lastUpdate : Update),
         elems updates = (init ++ [lastUpdate])%list ->
         (Message lastUpdate = None ->
          quiet_exit w "No message in the last update.")
         /\ (forall m : TelegramMsg,
                Message lastUpdate = Some m ->
                fst (ExtractURL (Some m) start) = Val "" ->
                quiet_exit w "No URL found in the last message.")).
Proof.
  intros F. split; [|intros init lastUpdate E; split].
  - intros L. apply (quiet_exit_intro w []); [|constructor].
    apply (main_no_updates w updates start F L).
  - intros M. apply (quiet_exit_intro w []); [|constructor].
    apply (main_no_message w updates init lastUpdate start F E M).
  - intros m M X. rewrite ExtractURL_nonnil in X. simpl in X.
    injection X as X.
    apply (quiet_exit_intro w [EvExtractURL (Some m)]).
    + apply (main_no_url w updates init lastUpdate m start F E M X).
    + constructor; [now exists (Some m) | constructor].
Qed.

Lemma main_absences_exit_zero_witness :
  quiet_exit (serving (Some []) all_succeed) "No new messages."
  /\ quiet_exit (serving None all_succeed) "No new messages."
  /\ quiet_exit
       (serving (Some [ {| UpdateID := 1; Message := Some hello_msg |};
                        {| UpdateID := 2; Message := None |} ]) all_succeed)
       "No message in the last update."
  /\ quiet_exit
       (serving (Some [ {| UpdateID := 1; Message := Some hello_msg |};
                        {| UpdateID := 2; Message := Some plain_msg |} ])
          all_succeed)
       "No URL found in the last message.".
Proof.
  split; [|split; [|split]].
  - apply (proj1 (main_absences_exit_zero
                    (serving (Some []) all_succeed) (Some [])
                    (serving_fetched (Some []) all_succeed))).
    reflexivity.
  - apply (proj1 (main_absences_exit_zero
                    (serving None all_succeed) None
                    (serving_fetched None all_succeed))).
    reflexivity.
  - apply (proj1 (proj2 (main_absences_exit_zero
                           (serving
                              (Some [ {| UpdateID := 1; Message := Some hello_msg |};
                                      {| UpdateID := 2; Message := None |} ])
                              all_succeed)
                           (Some [ {| UpdateID := 1; Message := Some hello_msg |};
                                   {| UpdateID := 2; Message := None |} ])
                           (serving_fetched _ all_succeed))
                    [ {| UpdateID := 1; Message := Some hello_msg |} ]
                    {| UpdateID := 2; Message := None |} eq_refl)).
    reflexivity.
  - apply (proj2 (proj2 (main_absences_exit_zero
                           (serving
                              (Some [ {| UpdateID := 1; Message := Some hello_msg |};
                                      {| UpdateID := 2; Message := Some plain_msg |} ])
                              all_succeed)
                           (Some [ {| UpdateID := 1; Message := Some hello_msg |};
                                   {| UpdateID := 2; Message := Some plain_msg |} ])
                           (serving_fetched _ all_succeed))
                    [ {| UpdateID := 1; Message := Some hello_msg |} ]
                    {| UpdateID := 2; Message := Some plain_msg |} eq_refl)
             plain_msg); reflexivity.
Defined.

(** C10: when the first entity of the URL kind in the last message has
    an empty [URL] field, [ExtractURL] returns the empty string,
    whatever entities follow it (a later URL entity with a non-empty URL
    included), and [main] takes the branch of a message without URL: it
    logs, returns with exit status 0 and does not enter
    [ShowNotification]. *)
Theorem empty_first_url_shadows_later
    (w : World) (updates : slice Update) (init : list Update)
    (lastUpdate : Update) (m : TelegramMsg)
    (pre post : list Entity) (e : Entity) :
  fetched w updates ->
  elems updates = (init ++ [lastUpdate])%list ->
  Message lastUpdate = Some m ->
  Entities m = Some (pre ++ e :: post)%list ->
  Forall not_url pre ->
  Type_ e = "url" ->
  URL e = "" ->
  fst (ExtractURL (Some m) start) = Val ""
  /\ quiet_exit w "No URL found in the last message.".
Proof.
  intros F E M G P K U.
  assert (X : url_found m = "").
  { unfold url_found. rewrite G, (range_Entities_first pre post e P K).
    exact U. }
  split.
  - rewrite ExtractURL_nonnil. simpl. now rewrite X.
  - apply (quiet_exit_intro w [EvExtractURL (Some m)]).
    + apply (main_no_url w updates init lastUpdate m start F E M X).
    + constructor; [now exists (Some m) | constructor].
Qed.

Lemma empty_first_url_shadows_later_witness :
  fst (ExtractURL (Some shadowed_msg) start) = Val ""
  /\ quiet_exit
       (serving (Some [ {| UpdateID := 5; Message := Some shadowed_msg |} ])
          all_succeed)
       "No URL found in the last message.".
Proof.
  apply (empty_first_url_shadows_later
           (serving (Some [ {| UpdateID := 5; Message := Some shadowed_msg |} ])
              all_succeed)
           (Some [ {| UpdateID := 5; Message := Some shadowed_msg |} ])
           [] {| UpdateID := 5; Message := Some shadowed_msg |} shadowed_msg
           [bold_entity] [url_entity "https://b.example"] (url_entity "")).
  - apply serving_fetched.
  - reflexivity.
  - reflexivity.
  - reflexivity.
  - constructor; [discriminate | constructor].
  - reflexivity.
  - reflexivity.
Defined.

(** Every run of [main] is one of these: a fatal exit before anything is
    extracted, or a run in which [ExtractURL] is called at most once,
    on a pointer that is not nil, and that ends by return or by
    [log.Fatalf]. *)
Lemma main_never_panics (w : World) :
  (extract_calls (trace (snd (run w))) = []
   \/ exists m, extract_calls (trace (snd (run w))) = [Some m])
  /\ (fst (run w) = Val tt \/ fst (run w) = Exit 1).
Proof.
  unfold run.
  destruct (http_Get w (getUpdates_url (Getenv w "TELEGRAM_BOT_TOKEN")))
    as [resp|msg] eqn:H.
  2:{ destruct (main_transport_error w msg start H) as (line & ->).
      simpl. split; [left; reflexivity | right; reflexivity]. }
  destruct (json_Decode w (Body resp) zero_Envelope) as [env [msg|]] eqn:D.
  { destruct (main_decode_error w resp env msg start H D) as (line & ->).
    simpl. split; [left; reflexivity | right; reflexivity]. }
  destruct (Ok env) eqn:O.
  2:{ destruct (main_not_ok w resp env start H D O) as (line & ->).
      simpl. split; [left; reflexivity | right; reflexivity]. }
  assert (F : fetched w (Result env)) by (exists resp, env; auto).
  destruct (elems (Result env)) as [|x l] eqn:E.
  { rewrite (main_no_updates w (Result env) start F).
    - simpl. split; left; reflexivity.
    - unfold len. now rewrite E. }
  destruct (@exists_last _ (x :: l)) as (init & lastUpdate & E');
    [discriminate|].
  rewrite E' in E. clear E' x l.
  destruct (Message lastUpdate) as [m|] eqn:M.
  2:{ rewrite (main_no_message w (Result env) init lastUpdate start F E M).
      simpl. split; left; reflexivity. }
  destruct (String.eqb_spec (url_found m) "") as [U|U].
  { rewrite (main_no_url w (Result env) init lastUpdate m start F E M U).
    simpl. split; [right; now exists m | left; reflexivity]. }
  destruct (main_notifies w (Result env) init lastUpdate m start F E M U)
    as (err & evs & Q & ->).
  unfold fetch_events. simpl. rewrite extract_calls_app.
  destruct (ole_events_silent evs Q) as (_ & -> & _).
  split; [right; exists m; now destruct err | destruct err; auto].
Qed.

(** C8: [ExtractURL] follows its pointer without a guard: on nil it
    panics, on a message it returns a value.  In no run of [main],
    whatever the libraries answer, is [ExtractURL] called on nil, and
    no run of [main] ends in a panic. *)
Theorem ExtractURL_nil_panics_unreachable :
  (forall s : Proc, exists msg s', ExtractURL None s = (Panic msg, s'))
  /\ (forall (m : TelegramMsg) (s : Proc),
         exists u s', ExtractURL (Some m) s = (Val u, s'))
  /\ (forall w : World,
         Forall (fun message => message <> None)
           (extract_calls (trace (snd (run w))))
         /\ forall msg, fst (run w) <> Panic msg).
Proof.
  split; [|split].
  - intros s. do 2 eexists. apply ExtractURL_nil.
  - intros m s. do 2 eexists. apply ExtractURL_nonnil.
  - intros w. destruct (main_never_panics w) as [C R]. split.
    + destruct C as [-> | (m & ->)]; repeat constructor. discriminate.
    + intros msg. destruct R as [-> | ->]; discriminate.
Qed.

(** ** The toast payload *)

Lemma toastXML_verbatim (title message url : string) :
  toastXML title message url
  = toast_before_title ++ title ++ toast_between_texts ++ message
    ++ toast_before_url ++ url ++ toast_after_url.
Proof. reflexivity. Qed.

Lemma ShowNotification_puts_toastXML
    (w : World) (title message url : string) (s : Proc) :
  template_obtained w ->
  In (EvOle (PutProperty content "InnerXml" (toastXML title message url))
        (ole w (PutProperty content "InnerXml" (toastXML title message url))))
     (trace (snd (ShowNotification w title message url s))).
Proof.
  intros (H1 & H2 & H3 & H4 & H5).
  unfold ShowNotification, func, bind, ole_, emit, ret, defer. simpl.
  rewrite H1. simpl. rewrite H2. simpl. rewrite H3. simpl.
  rewrite H4. simpl. rewrite H5. simpl.
  destruct (ole w (PutProperty _ _ _)) as [e6|]; simpl.
  - rewrite <- !app_assoc. apply in_or_app. right. simpl. tauto.
  - destruct (ole w (CallMethod notifier _ _)) as [e7|]; simpl;
      rewrite <- !app_assoc; apply in_or_app; right; simpl; tauto.
Qed.

(** C9: the payload is the format with the three arguments written in
    as they are: whatever the title, the body and the URL hold, the
    document handed to [PutProperty] for "InnerXml" is the four fixed
    stretches of the format with the three strings between them, no
    character of them changed, added or refused.  So a [<] in the
    title, an [&] in the body or a single quote in the URL gives a
    payload that is not the intended document: the first three below
    are not XML at all, and the fourth is a document whose action has
    another [arguments] and one attribute more. *)
Theorem ShowNotification_payload_unescaped :
  (forall title message url : string,
      toastXML title message url
      = toast_before_title ++ title ++ toast_between_texts ++ message
        ++ toast_before_url ++ url ++ toast_after_url)
  /\ (forall (w : World) (title message url : string) (s : Proc),
         template_obtained w ->
         In (EvOle (PutProperty content "InnerXml" (toastXML title message url))
               (ole w (PutProperty content "InnerXml"
                         (toastXML title message url))))
            (trace (snd (ShowNotification w title message url s))))
  /\ Xml.read (toastXML "1 < 2" "hello" "http://x.test")
     <> Some (intended_toast "1 < 2" "hello" "http://x.test")
  /\ Xml.read (toastXML "New Message" "Tom & Jerry" "http://x.test")
     <> Some (intended_toast "New Message" "Tom & Jerry" "http://x.test")
  /\ Xml.read (toastXML "New Message" "hello" "http://x.test/?q=it's")
     <> Some (intended_toast "New Message" "hello" "http://x.test/?q=it's")
  /\ Xml.read (toastXML "New Message" "hello" "x' hint-inputId='y")
     <> Some (intended_toast "New Message" "hello" "x' hint-inputId='y").
Proof.
  split; [exact toastXML_verbatim|].
  split; [exact ShowNotification_puts_toastXML|].
  repeat split; intros H; vm_compute in H; discriminate H.
Qed.

Lemma ShowNotification_payload_unescaped_witness :
  In (EvOle (PutProperty content "InnerXml"
               (toastXML "New Message" "Tom & Jerry" "http://x.test")) None)
     (trace (snd (ShowNotification (serving None all_succeed)
                    "New Message" "Tom & Jerry" "http://x.test" start))).
Proof.
  apply (proj1 (proj2 ShowNotification_payload_unescaped)
           (serving None all_succeed)
           "New Message" "Tom & Jerry" "http://x.test" start).
  repeat split; reflexivity.
Defined.

(** What the reader makes of those payloads, and of a harmless one. *)
Example toast_read_harmless :
  Xml.read (toastXML "New Message" "You received a new message: hello"
              "http://x.test")
  = Some (intended_toast "New Message" "You received a new message: hello"
            "http://x.test").
Proof. vm_compute. reflexivity. Qed.

Example toast_read_lt_in_title :
  Xml.read (toastXML "1 < 2" "hello" "http://x.test") = None.
Proof. vm_compute. reflexivity. Qed.

Example toast_read_amp_in_body :
  Xml.read (toastXML "New Message" "Tom & Jerry" "http://x.test") = None.
Proof. vm_compute. reflexivity. Qed.

Example toast_read_quote_in_url :
  Xml.read (toastXML "New Message" "hello" "http://x.test/?q=it's") = None.
Proof. vm_compute. reflexivity. Qed.

Example toast_read_injected_attribute :
  Xml.read (toastXML "New Message" "hello" "x' hint-inputId='y")
  = Some
      (Xml.Elem "toast" []
         [ Xml.Elem "visual" []
             [ Xml.Elem "binding" [("template", "ToastGeneric")]
                 [ Xml.Elem "text" [] [Xml.Chars "New Message"];
                   Xml.Elem "text" [] [Xml.Chars "hello"] ] ];
           Xml.Elem "actions" []
             [ Xml.Elem "action"
                 [ ("content", "Open browser");
                   ("arguments", "x");
                   ("hint-inputId", "y");
                   ("activationType", "foreground") ] [] ] ]).
Proof. vm_compute. reflexivity. Qed.

(** ** The reader on harmless arguments *)

Lemma string_length_app (a b : string) :
  String.length (a ++ b) = (String.length a + String.length b)%nat.
Proof. induction a as [|c a IH]; simpl; [reflexivity | now rewrite IH]. Qed.

Lemma read_chars_plain (t : string) :
  forall (fuel : nat) (stop : ascii) (r : string),
    plain_for stop t ->
    (String.length t < fuel)%nat ->
    Xml.read_chars fuel stop (t ++ String stop r) = Some (t, String stop r).
Proof.
  induction t as [|c t IH]; intros fuel stop r P L.
  - destruct fuel as [|fuel]; [simpl in L; lia|].
    simpl. now rewrite Ascii.eqb_refl.
  - destruct fuel as [|fuel]; [simpl in L; lia|].
    destruct P as (P1 & P2 & P3 & P).
    simpl. rewrite P1, P2, P3.
    rewrite (IH fuel stop r P) by (simpl in L; lia). reflexivity.
Qed.

Lemma read_chars_whole (t : string) (stop : ascii) (r : string) :
  plain_for stop t ->
  Xml.read_chars (S (String.length (t ++ String stop r))) stop (t ++ String stop r)
  = Some (t, String stop r).
Proof.
  intros P. apply read_chars_plain; [exact P|].
  rewrite string_length_app. lia.
Qed.

Lemma read_element_S (fuel : nat) (s : string) :
  Xml.read_element (S fuel) s = Xml.element_step (Xml.read_content fuel) s.
Proof. reflexivity. Qed.

Lemma read_content_S (fuel : nat) (s : string) :
  Xml.read_content (S fuel) s
  = Xml.content_step (Xml.read_element fuel) (Xml.read_content fuel) s.
Proof. reflexivity. Qed.

Lemma read_attrs_S (fuel : nat) (seen : list (string * string)) (s : string) :
  Xml.read_attrs (S fuel) seen s = Xml.attrs_step (Xml.read_attrs fuel) seen s.
Proof. reflexivity. Qed.

(** The children of an element that holds text only. *)
Lemma read_content_text (fuel : nat) (t r : string) :
  plain_for "<" t ->
  Xml.read_content (S (S fuel)) (t ++ String "<" (String "/" r))
  = Some (text_of t, String "<" (String "/" r)).
Proof.
  intros P. destruct t as [|c t]; [reflexivity|].
  assert (C : (c =? "<")%char = false) by apply P.
  rewrite read_content_S. unfold Xml.content_step at 1.
  change ((String c t ++ String "<" (String "/" r))%string)
    with (String c (t ++ String "<" (String "/" r))) at 1.
  cbv iota beta. rewrite C.
  change (String c (t ++ String "<" (String "/" r)))
    with ((String c t ++ String "<" (String "/" r))%string).
  rewrite (read_chars_whole (String c t) "<" (String "/" r) P).
  reflexivity.
Qed.

Arguments Xml.read_chars : simpl never.
Arguments Xml.read_attrs : simpl never.
Arguments Xml.read_element : simpl never.
Arguments Xml.read_content : simpl never.

Ltac split_at stop s :=
  lazymatch s with
  | String stop ?r => constr:((EmptyString, r))
  | String ?c ?r =>
      let p := split_at stop r in
      lazymatch p with
      | (?t, ?r') => constr:((String c t, r'))
      end
  | (?v ++ String stop ?r)%string => constr:((v, r))
  end.

Ltac chars_step :=
  match goal with
  | |- context [Xml.read_chars ?f ?stop ?s] =>
      let p := split_at stop s in
      lazymatch p with
      | (?t, ?r) =>
          rewrite (read_chars_plain t f stop r)
            by (first [assumption | simpl; repeat split; reflexivity
                      | rewrite ?string_length_app; simpl; lia])
      end
  end.

Ltac xstep :=
  first [ rewrite read_content_text by assumption
        | rewrite read_element_S; unfold Xml.element_step
        | rewrite read_content_S; unfold Xml.content_step
        | rewrite read_attrs_S; unfold Xml.attrs_step
        | chars_step ];
  simpl.

Lemma tidy_text_of (t : string) : Xml.tidy (text_of t) = text_of t.
Proof. destruct t; reflexivity. Qed.



(** * Further properties *)

(** ** GetUpdates: the request and the response body *)

Lemma GetUpdates_shape (w : World) (token : string) (s : Proc) :
  exists r,
    GetUpdates w token s
    = (Val r,
       extend s (EvHttpGet (getUpdates_url token)
                 :: match http_Get w (getUpdates_url token) with
                    | inl _ => [EvBodyClose]
                    | inr _ => []
                    end))
    /\ ((exists e, r = (None, Some e)) \/ (exists updates, r = (updates, None))).
Proof.
  destruct (http_Get w (getUpdates_url token)) as [resp|msg] eqn:H.
  - destruct (json_Decode w (Body resp) zero_Envelope) as [env [msg|]] eqn:D.
    + eexists. split.
      * apply (GetUpdates_decode_error w token msg resp env s H D).
      * left. eexists. reflexivity.
    + eexists. split.
      * apply (GetUpdates_decoded w token resp env s H D).
      * destruct (Ok env); [right | left]; eexists; reflexivity.
  - eexists. split.
    + apply (GetUpdates_transport_error w token msg s H).
    + left. eexists. reflexivity.
Qed.


(** X2: when [http.Get] fails, [GetUpdates] returns the nil slice and
    the transport's error, the same value, whatever the decoder would
    have made of any body. *)
Theorem GetUpdates_transport_failure_returned
    (w : World) (token msg : string) (s : Proc) :
  http_Get w ("https://api.telegram.org/bot" ++ token ++ "/getUpdates")
  = inr msg ->
  fst (GetUpdates w token s) = Val (None, Some (LibError net_http msg))
  /\ Error (LibError net_http msg) = msg.
Proof.
  intros H. rewrite (GetUpdates_transport_error w token msg s H).
  split; reflexivity.
Qed.

Lemma GetUpdates_transport_failure_returned_witness :
  fst (GetUpdates
         {| Getenv := fun _ => "t0k";
            http_Get := fun _ => inr "dial tcp: lookup api.telegram.org: no such host";
            json_Decode := fun _ v => ({| Ok := true; Result := Some [] |}, None);
            ole := all_succeed |}
         "t0k" start)
  = Val (None,
         Some (LibError net_http
                 "dial tcp: lookup api.telegram.org: no such host")).
Proof.
  apply (GetUpdates_transport_failure_returned
           {| Getenv := fun _ => "t0k";
              http_Get := fun _ => inr "dial tcp: lookup api.telegram.org: no such host";
              json_Decode := fun _ v => ({| Ok := true; Result := Some [] |}, None);
              ole := all_succeed |}
           "t0k" "dial tcp: lookup api.telegram.org: no such host" start).
  reflexivity.
Defined.

(** ** ExtractURL: what the result depends on *)

(** X3: a non-empty result of [ExtractURL] is the [URL] field of an
    entity of the message that has the URL kind and that no entity of
    that kind precedes: the function makes no URL up. *)
Theorem ExtractURL_result_is_first_url
    (m : TelegramMsg) (s : Proc) (u : string) :
  fst (ExtractURL (Some m) s) = Val u ->
  u <> "" ->
  exists pre e post,
    Entities m = Some (pre ++ e :: post)%list
    /\ Forall not_url pre /\ Type_ e = "url" /\ URL e = u.
Proof.
  rewrite ExtractURL_nonnil. simpl. intros [= X] U. unfold url_found in X.
  destruct (Entities m) as [entities|]; [|now elim U].
  destruct (range_Entities entities) as [u'|] eqn:R; [|now elim U].
  subst u'. destruct (range_Entities_some entities u R)
    as (pre & e & post & -> & P & K & V).
  now exists pre, e, post.
Qed.

Lemma ExtractURL_result_is_first_url_witness :
  exists pre e post,
    Entities hello_msg = Some (pre ++ e :: post)%list
    /\ Forall not_url pre /\ Type_ e = "url" /\ URL e = "http://x.test".
Proof.
  apply (ExtractURL_result_is_first_url hello_msg start "http://x.test").
  - reflexivity.
  - discriminate.
Defined.

Lemma range_Entities_kind_and_url (a b : list Entity) :
  map kind_and_url a = map kind_and_url b ->
  range_Entities a = range_Entities b.
Proof.
  revert b. induction a as [|x a IH]; intros [|y b] H; try discriminate.
  - reflexivity.
  - simpl in H. injection H as Hk Hu H. simpl.
    rewrite Hk, Hu, (IH b H). reflexivity.
Qed.

(** X4: the result of [ExtractURL] depends on the kinds and URLs of the
    entities, in their order, and on nothing else: not on offsets or
    lengths, not on the text or the identifier of the message, not on
    the slice being nil rather than empty. *)
Theorem ExtractURL_reads_kind_and_url_only
    (m1 m2 : TelegramMsg) (s1 s2 : Proc) :
  map kind_and_url (elems (Entities m1)) = map kind_and_url (elems (Entities m2)) ->
  fst (ExtractURL (Some m1) s1) = fst (ExtractURL (Some m2) s2).
Proof.
  intros H. rewrite !ExtractURL_nonnil. simpl. f_equal. unfold url_found.
  destruct (Entities m1) as [a|], (Entities m2) as [b|]; simpl in H.
  - now rewrite (range_Entities_kind_and_url a b H).
  - destruct a; [reflexivity | discriminate].
  - destruct b; [reflexivity | discriminate].
  - reflexivity.
Qed.

Lemma ExtractURL_reads_kind_and_url_only_witness :
  fst (ExtractURL
         (Some {| MessageID := 1; Text := "a";
                  Entities := Some [ {| Type_ := "url"; Offset := 0;
                                        Length := 5; URL := "http://x.test" |} ] |})
         start)
  = fst (ExtractURL
           (Some {| MessageID := 2; Text := "b";
                    Entities := Some [ {| Type_ := "url"; Offset := 40;
                                          Length := 900; URL := "http://x.test" |} ] |})
           start).
Proof.
  apply ExtractURL_reads_kind_and_url_only. reflexivity.
Defined.

Lemma range_Entities_filter (entities : list Entity) :
  range_Entities (filter is_url entities) = range_Entities entities.
Proof.
  induction entities as [|x l IH]; simpl; [reflexivity|].
  unfold is_url at 1. destruct (String.eqb (Type_ x) "url") eqn:E; simpl.
  - now rewrite E.
  - exact IH.
Qed.

(** X5: entities of other kinds never contribute, whatever their [URL]
    field holds: dropping them from the message leaves the result of
    [ExtractURL] as it was. *)
Theorem ExtractURL_ignores_other_kinds (m : TelegramMsg) (s1 s2 : Proc) :
  fst (ExtractURL
         (Some {| MessageID := MessageID m; Text := Text m;
                  Entities := Some (filter is_url (elems (Entities m))) |}) s1)
  = fst (ExtractURL (Some m) s2).
Proof.
  rewrite !ExtractURL_nonnil. simpl. f_equal. unfold url_found. simpl.
  rewrite range_Entities_filter. now destruct (Entities m).
Qed.

(** ** ShowNotification: where it stops and what it reports *)

Ltac run_notification :=
  unfold ShowNotification, func, bind, ole_, emit, ret, defer; simpl.

Ltac show_report :=
  cbv [Errorf Sprintf format_verb is_text_verb operand_text Error
       Ascii.eqb Bool.eqb orb andb];
  rewrite ?string_app_nil_r.

Ltac close_path :=
  eexists; split;
  [tidy_trace; show_report; reflexivity | vm_compute; reflexivity].

(** The error [ShowNotification] returns does not depend on the state
    of the process it is called in. *)
Lemma ShowNotification_result_anywhere
    (w : World) (title message url : string) (s1 s2 : Proc) :
  fst (ShowNotification w title message url s1)
  = fst (ShowNotification w title message url s2).
Proof.
  run_notification.
  destruct (ole w (CoInitialize 0)); simpl; [reflexivity|].
  destruct (ole w (CreateObject _)); simpl; [reflexivity|].
  destruct (ole w (QueryInterface _ _)); simpl; [reflexivity|].
  destruct (ole w (GetProperty _ _)); simpl; [reflexivity|].
  destruct (ole w (CallMethod managerDispatch _ _)); simpl; [reflexivity|].
  destruct (ole w (PutProperty _ _ _)); simpl; [reflexivity|].
  destruct (ole w (CallMethod notifier _ _)); reflexivity.
Qed.

(** X6: [ShowNotification] stops at the first platform call that fails:
    when the calls before a step succeed and the step fails with the
    text [msg], the function returns the step's own report followed by
    [msg], it has attempted the calls up to that step and none of the
    later ones. *)
Theorem ShowNotification_stops_at_first_failure
    (w : World) (title message url : string) (s : Proc)
    (done rest : list (ole_call * string)) (c : ole_call) (label msg : string) :
  notification_steps title message url = (done ++ (c, label) :: rest)%list ->
  Forall (succeeds w) done ->
  ole w c = Some msg ->
  exists evs,
    ShowNotification w title message url s
    = (Val (Some (ErrorString (label ++ msg))),
       extend s (EvShowNotification title message url :: evs))
    /\ attempts evs = (map fst done ++ [c])%list.
Proof.
  intros E D F. unfold notification_steps in E.
  destruct done as [|d0 done]; simpl in E.
  { injection E as <- <- <-. run_notification. rewrite F. simpl. close_path. }
  injection E as <- E. apply Forall_cons_iff in D. destruct D as [D0 D].
  unfold succeeds in D0. simpl in D0.
  destruct done as [|d1 done]; simpl in E.
  { injection E as <- <- <-. run_notification. rewrite D0. simpl.
    rewrite F. simpl. close_path. }
  injection E as <- E. apply Forall_cons_iff in D. destruct D as [D1 D].
  unfold succeeds in D1. simpl in D1.
  destruct done as [|d2 done]; simpl in E.
  { injection E as <- <- <-. run_notification. rewrite D0. simpl.
    rewrite D1. simpl. rewrite F. simpl. close_path. }
  injection E as <- E. apply Forall_cons_iff in D. destruct D as [D2 D].
  unfold succeeds in D2. simpl in D2.
  destruct done as [|d3 done]; simpl in E.
  { injection E as <- <- <-. run_notification. rewrite D0. simpl.
    rewrite D1. simpl. rewrite D2. simpl. rewrite F. simpl. close_path. }
  injection E as <- E. apply Forall_cons_iff in D. destruct D as [D3 D].
  unfold succeeds in D3. simpl in D3.
  destruct done as [|d4 done]; simpl in E.
  { injection E as <- <- <-. run_notification. rewrite D0. simpl.
    rewrite D1. simpl. rewrite D2. simpl. rewrite D3. simpl.
    rewrite F. simpl. close_path. }
  injection E as <- E. apply Forall_cons_iff in D. destruct D as [D4 D].
  unfold succeeds in D4. simpl in D4.
  destruct done as [|d5 done]; simpl in E.
  { injection E as <- <- <-. run_notification. rewrite D0. simpl.
    rewrite D1. simpl. rewrite D2. simpl. rewrite D3. simpl.
    rewrite D4. simpl. rewrite F. simpl. close_path. }
  injection E as <- E. apply Forall_cons_iff in D. destruct D as [D5 D].
  unfold succeeds in D5. simpl in D5.
  destruct done as [|d6 done]; simpl in E.
  { injection E as <- <- <-. run_notification. rewrite D0. simpl.
    rewrite D1. simpl. rewrite D2. simpl. rewrite D3. simpl.
    rewrite D4. simpl. rewrite D5. simpl. rewrite F. simpl. close_path. }
  injection E as _ E. destruct done; discriminate E.
Qed.

Lemma ShowNotification_stops_at_first_failure_witness :
  exists evs,
    ShowNotification (serving None refusing_interface) "t" "m" "u" start
    = (Val (Some (ErrorString "failed to query IDispatch: E_NOINTERFACE")),
       extend start (EvShowNotification "t" "m" "u" :: evs))
    /\ attempts evs
       = [ CoInitialize 0;
           CreateObject "Windows.UI.Notifications.ToastNotificationManager";
           QueryInterface manager "IID_IDispatch" ].
Proof.
  apply (ShowNotification_stops_at_first_failure
           (serving None refusing_interface) "t" "m" "u" start
           [ (CoInitialize 0, "failed to initialize OLE: ");
             (CreateObject "Windows.UI.Notifications.ToastNotificationManager",
              "failed to create ToastNotificationManager: ") ]
           [ (GetProperty managerDispatch "ToastNotifier",
              "failed to get ToastNotifier: ");
             (CallMethod managerDispatch "GetTemplateContent" [PInt 2],
              "failed to get template content: ");
             (PutProperty content "InnerXml" (toastXML "t" "m" "u"),
              "failed to set inner XML: ");
             (CallMethod notifier "Show" [PDispatch content],
              "failed to show notification: ") ]
           (QueryInterface manager "IID_IDispatch")
           "failed to query IDispatch: " "E_NOINTERFACE").
  - reflexivity.
  - repeat constructor.
  - reflexivity.
Defined.

(** X7: [ShowNotification] returns a nil error exactly when all seven
    platform calls succeed; it then has attempted the seven, in the
    order of the source, the display last. *)
Theorem ShowNotification_nil_iff_all_succeed
    (w : World) (title message url : string) (s : Proc) :
  (fst (ShowNotification w title message url s) = Val None
   <-> Forall (succeeds w) (notification_steps title message url))
  /\ (fst (ShowNotification w title message url s) = Val None ->
      exists evs,
        snd (ShowNotification w title message url s)
        = extend s (EvShowNotification title message url :: evs)
        /\ attempts evs = map fst (notification_steps title message url)).
Proof.
  assert (A : Forall (succeeds w) (notification_steps title message url)
              -> exists evs,
                ShowNotification w title message url s
                = (Val None, extend s (EvShowNotification title message url :: evs))
                /\ attempts evs = map fst (notification_steps title message url)).
  { intros D. unfold notification_steps in D.
    repeat match goal with
           | H : Forall _ (_ :: _) |- _ =>
               apply Forall_cons_iff in H;
               let H1 := fresh "S" in destruct H as [H1 H];
               unfold succeeds in H1; simpl in H1
           end.
    run_notification.
    rewrite S. simpl. rewrite S0. simpl. rewrite S1. simpl. rewrite S2. simpl.
    rewrite S3. simpl. rewrite S4. simpl. rewrite S5. simpl.
    eexists. split; [tidy_trace; reflexivity | vm_compute; reflexivity]. }
  assert (B : fst (ShowNotification w title message url s) = Val None
              -> Forall (succeeds w) (notification_steps title message url)).
  { run_notification.
    destruct (ole w (CoInitialize 0)) eqn:S0; simpl; [discriminate|].
    destruct (ole w (CreateObject _)) eqn:S1; simpl; [discriminate|].
    destruct (ole w (QueryInterface _ _)) eqn:S2; simpl; [discriminate|].
    destruct (ole w (GetProperty _ _)) eqn:S3; simpl; [discriminate|].
    destruct (ole w (CallMethod managerDispatch _ _)) eqn:S4; simpl;
      [discriminate|].
    destruct (ole w (PutProperty _ _ _)) eqn:S5; simpl; [discriminate|].
    destruct (ole w (CallMethod notifier _ _)) eqn:S6; simpl; [discriminate|].
    intros _. repeat constructor; assumption. }
  split; [split; [exact B|]|].
  - intros D. destruct (A D) as (evs & -> & _). reflexivity.
  - intros N. destruct (A (B N)) as (evs & -> & T). now exists evs.
Qed.

Lemma ShowNotification_nil_iff_all_succeed_witness :
  exists evs,
    snd (ShowNotification (serving None all_succeed) "t" "m" "u" start)
    = extend start (EvShowNotification "t" "m" "u" :: evs)
    /\ attempts evs = map fst (notification_steps "t" "m" "u").
Proof.
  apply (proj2 (ShowNotification_nil_iff_all_succeed
                  (serving None all_succeed) "t" "m" "u" start)).
  reflexivity.
Defined.

(** X8: the deferred releases run last-in first-out: on every path the
    resources are released in the reverse of the order in which they
    were acquired. *)
Theorem ShowNotification_releases_in_reverse
    (w : World) (title message url : string) (s : Proc) :
  exists err evs,
    ShowNotification w title message url s
    = (Val err, extend s (EvShowNotification title message url :: evs))
    /\ released_in_order evs = rev (acquired_in_order evs).
Proof.
  run_notification.
  destruct (ole w (CoInitialize 0)) as [e1|]; simpl.
  { eexists. close_path. }
  destruct (ole w (CreateObject _)) as [e2|]; simpl.
  { eexists. close_path. }
  destruct (ole w (QueryInterface _ _)) as [e3|]; simpl.
  { eexists. close_path. }
  destruct (ole w (GetProperty _ _)) as [e4|]; simpl.
  { eexists. close_path. }
  destruct (ole w (CallMethod managerDispatch _ _)) as [e5|]; simpl.
  { eexists. close_path. }
  destruct (ole w (PutProperty _ _ _)) as [e6|]; simpl.
  { eexists. close_path. }
  destruct (ole w (CallMethod notifier _ _)) as [e7|]; simpl.
  { eexists. close_path. }
  eexists. close_path.
Qed.

(** ** main: every run *)

(** Running [ShowNotification] in a state is running it at the start
    and appending what it leaves. *)
Lemma ShowNotification_frame
    (w : World) (title message url : string) (s : Proc) :
  ShowNotification w title message url s
  = (fst (ShowNotification w title message url start),
     extend s (trace (snd (ShowNotification w title message url start)))).
Proof.
  run_notification.
  destruct (ole w (CoInitialize 0)); simpl; [tidy_trace; reflexivity|].
  destruct (ole w (CreateObject _)); simpl; [tidy_trace; reflexivity|].
  destruct (ole w (QueryInterface _ _)); simpl; [tidy_trace; reflexivity|].
  destruct (ole w (GetProperty _ _)); simpl; [tidy_trace; reflexivity|].
  destruct (ole w (CallMethod managerDispatch _ _)); simpl;
    [tidy_trace; reflexivity|].
  destruct (ole w (PutProperty _ _ _)); simpl; [tidy_trace; reflexivity|].
  destruct (ole w (CallMethod notifier _ _)); simpl; tidy_trace; reflexivity.
Qed.

Lemma Sprintf_error_fetching (e : error) :
  Sprintf "Error fetching updates: %v
" [Err e]
  = "Error fetching updates: " ++ Error e ++ newline.
Proof. reflexivity. Qed.

(** What [main] does once [GetUpdates] returned an error. *)
Lemma main_fetch_failed (w : World) (updates : slice Update) (e : error)
    (s s' : Proc) :
  GetUpdates w (Getenv w "TELEGRAM_BOT_TOKEN") {| trace := trace s; defers := [] |}
  = (Val (updates, Some e), s') ->
  main w s
  = (Exit 1,
     {| trace := trace s'
                 ++ [EvLog ("Error fetching updates: " ++ Error e ++ newline)];
        defers := defers s |}).
Proof.
  intros H. unfold main, func, bind, os_Getenv, ret. rewrite H.
  unfold log_Fatalf, bind, emit, os_Exit. simpl.
  now rewrite Sprintf_error_fetching.
Qed.

(** What [main] does once it has a last message with a URL. *)
Lemma main_notify_run (w : World) (updates : slice Update) (init : list Update)
    (lastUpdate : Update) (m : TelegramMsg) (err : option error) (s : Proc) :
  fetched w updates ->
  elems updates = (init ++ [lastUpdate])%list ->
  Message lastUpdate = Some m ->
  url_found m <> "" ->
  fst (ShowNotification w "New Message" (notification_body m) (url_found m) start)
  = Val err ->
  main w s
  = (match err with
     | None => Val tt
     | Some _ => Exit 1
     end,
     extend s
       (fetch_events w
        ++ EvExtractURL (Some m)
           :: trace (snd (ShowNotification w "New Message" (notification_body m)
                            (url_found m) start))
           ++ match err with
              | None => []
              | Some e => [EvLog ("Error showing notification: " ++ Error e)]
              end)).
Proof.
  intros (resp & env & H & D & O & R) E M U N.
  unfold main, func, bind, os_Getenv, ret.
  rewrite (GetUpdates_decoded w _ resp env _ H D), O, R.
  simpl. rewrite (len_last_nonzero init lastUpdate updates E).
  rewrite (index_last init lastUpdate updates _ E), M.
  rewrite ExtractURL_nonnil.
  apply String.eqb_neq in U. rewrite U. simpl.
  rewrite Sprintf_new_message. fold (notification_body m).
  rewrite ShowNotification_frame, N.
  destruct err as [e|];
    unfold log_Fatalf, bind, emit, os_Exit, extend, fetch_events; simpl.
  - rewrite Sprintf_error_showing. rewrite <- !app_assoc. reflexivity.
  - rewrite !app_nil_r, <- !app_assoc. reflexivity.
Qed.

Lemma ShowNotification_at_start (w : World) (title message url : string) :
  exists err evs,
    fst (ShowNotification w title message url start) = Val err
    /\ trace (snd (ShowNotification w title message url start))
       = EvShowNotification title message url :: evs
    /\ Forall is_ole_event evs.
Proof.
  destruct (ShowNotification_returns w title message url start)
    as (err & evs & -> & F & _).
  exists err, evs. split; [reflexivity | split; [reflexivity | exact F]].
Qed.

Lemma main_runs (w : World) :
  main_run w (fst (run w)) (trace (snd (run w))).
Proof.
  unfold run.
  destruct (GetUpdates_shape w (Getenv w "TELEGRAM_BOT_TOKEN") start)
    as (r & G & K).
  destruct K as [(e & ->) | (updates & ->)].
  { rewrite (main_fetch_failed w None e start _ G). simpl.
    apply run_fetch_failed.
    destruct (http_Get w _); [right | left]; reflexivity. }
  assert (F : fetched w updates).
  { destruct (http_Get w (getUpdates_url (Getenv w "TELEGRAM_BOT_TOKEN")))
      as [resp|msg] eqn:H.
    - destruct (json_Decode w (Body resp) zero_Envelope) as [env [msg|]] eqn:D.
      + rewrite (GetUpdates_decode_error w _ msg resp env start H D) in G.
        discriminate G.
      + rewrite (GetUpdates_decoded w _ resp env start H D) in G.
        destruct (Ok env) eqn:O; [|discriminate G].
        injection G as G. exists resp, env. auto.
    - rewrite (GetUpdates_transport_error w _ msg start H) in G.
      discriminate G. }
  clear G.
  destruct (elems updates) as [|x l] eqn:E.
  { rewrite (main_no_updates w updates start F).
    - simpl. apply run_no_updates.
    - unfold len. now rewrite E. }
  destruct (@exists_last _ (x :: l)) as (init & lastUpdate & E');
    [discriminate|].
  rewrite E' in E. clear E' x l.
  destruct (Message lastUpdate) as [m|] eqn:M.
  2:{ rewrite (main_no_message w updates init lastUpdate start F E M).
      simpl. apply run_no_message. }
  destruct (String.eqb_spec (url_found m) "") as [U|U].
  { rewrite (main_no_url w updates init lastUpdate m start F E M U).
    simpl. apply run_no_url. }
  destruct (ShowNotification_at_start w "New Message" (notification_body m)
              (url_found m)) as (err & evs & N & T & O).
  rewrite (main_notify_run w updates init lastUpdate m err start F E M U N).
  rewrite T. simpl. apply (run_notified w m err evs U O).
Qed.

Lemma http_requests_app (a b : list event) :
  http_requests (a ++ b) = (http_requests a ++ http_requests b)%list.
Proof. unfold http_requests. apply flat_map_app. Qed.

Lemma ole_events_no_request (evs : list event) :
  Forall is_ole_event evs -> http_requests evs = [].
Proof.
  induction 1 as [|e evs He _ IH]; [reflexivity|].
  destruct e; simpl in He; try contradiction. exact IH.
Qed.

(** X9: when [GetUpdates] returns an error, [main] logs
    "Error fetching updates: " with the error's text and exits with
    status 1: no message is looked at and no notification is raised. *)
Theorem main_fetch_failure_is_fatal
    (w : World) (updates : slice Update) (e : error) :
  fst (GetUpdates w (Getenv w "TELEGRAM_BOT_TOKEN") start) = Val (updates, Some e) ->
  fst (run w) = Exit 1
  /\ exit_status (fst (run w)) = 1
  /\ log_lines (trace (snd (run w)))
     = ["Error fetching updates: " ++ Error e ++ newline]
  /\ extract_calls (trace (snd (run w))) = []
  /\ notifier_calls (trace (snd (run w))) = [].
Proof.
  intros H.
  destruct (GetUpdates_shape w (Getenv w "TELEGRAM_BOT_TOKEN") start)
    as (r & G & _).
  rewrite G in H. simpl in H. injection H as ->.
  unfold run. rewrite (main_fetch_failed w updates e start _ G). simpl.
  destruct (http_Get w _); simpl; repeat split; reflexivity.
Qed.

Lemma main_fetch_failure_is_fatal_witness :
  fst (run (scripted "t0k" "{}" ({| Ok := false; Result := None |}, None)
              all_succeed))
  = Exit 1
  /\ log_lines (trace (snd (run (scripted "t0k" "{}"
                                   ({| Ok := false; Result := None |}, None)
                                   all_succeed))))
     = ["Error fetching updates: failed to get updates" ++ newline].
Proof.
  destruct (main_fetch_failure_is_fatal
              (scripted "t0k" "{}" ({| Ok := false; Result := None |}, None)
                 all_succeed)
              None (ErrorString "failed to get updates") eq_refl)
    as (R & _ & L & _).
  split; [exact R | exact L].
Defined.

(** X10: once [ShowNotification] is called, its result decides the end
    of the run: a nil error gives exit status 0 and no log line; an
    error gives the log line "Error showing notification: " with the
    error's text, and exit status 1. *)
Theorem main_notification_outcome
    (w : World) (updates : slice Update) (init : list Update)
    (lastUpdate : Update) (m : TelegramMsg) (u : string) (err : option error) :
  fetched w updates ->
  elems updates = (init ++ [lastUpdate])%list ->
  Message lastUpdate = Some m ->
  fst (ExtractURL (Some m) start) = Val u ->
  u <> "" ->
  fst (ShowNotification w "New Message"
         ("You received a new message: " ++ Text m) u start) = Val err ->
  exit_status (fst (run w)) = match err with None => 0 | Some _ => 1 end
  /\ log_lines (trace (snd (run w)))
     = match err with
       | None => []
       | Some e => ["Error showing notification: " ++ Error e]
       end.
Proof.
  intros F E M X U N.
  rewrite ExtractURL_nonnil in X. simpl in X. injection X as <-.
  fold (notification_body m) in N.
  unfold run. rewrite (main_notify_run w updates init lastUpdate m err start F E M U N).
  destruct (ShowNotification_at_start w "New Message" (notification_body m)
              (url_found m)) as (err' & evs & _ & -> & O).
  unfold fetch_events. simpl. rewrite log_lines_app.
  destruct (ole_events_silent evs O) as (_ & _ & ->).
  destruct err; split; reflexivity.
Qed.

Lemma main_notification_outcome_witness :
  exit_status
    (fst (run (serving (Some [ {| UpdateID := 3; Message := Some hello_msg |} ])
                 refusing_interface)))
  = 1
  /\ log_lines
       (trace (snd (run (serving
                           (Some [ {| UpdateID := 3; Message := Some hello_msg |} ])
                           refusing_interface))))
     = ["Error showing notification: failed to query IDispatch: E_NOINTERFACE"].
Proof.
  apply (main_notification_outcome
           (serving (Some [ {| UpdateID := 3; Message := Some hello_msg |} ])
              refusing_interface)
           (Some [ {| UpdateID := 3; Message := Some hello_msg |} ])
           [] {| UpdateID := 3; Message := Some hello_msg |} hello_msg
           "http://x.test"
           (Some (ErrorString "failed to query IDispatch: E_NOINTERFACE"))).
  - apply serving_fetched.
  - reflexivity.
  - reflexivity.
  - reflexivity.
  - discriminate.
  - reflexivity.
Defined.


(** X12: in every run [ShowNotification] is entered at most once, and
    when it is, [ExtractURL] was called once, on a message [m] from
    which it returned a URL that is not empty; the call carries the
    title "New Message", the body made of the text of [m], and that
    URL.  [main] never raises a notification with an empty URL. *)
Theorem main_notifies_at_most_once (w : World) :
  notifier_calls (trace (snd (run w))) = []
  \/ exists (m : TelegramMsg) (u : string),
       extract_calls (trace (snd (run w))) = [Some m]
       /\ fst (ExtractURL (Some m) start) = Val u
       /\ u <> ""
       /\ notifier_calls (trace (snd (run w)))
          = [("New Message", "You received a new message: " ++ Text m, u)].
Proof.
  destruct (main_runs w) as [e closed C | | | m | m err evs U O];
    unfold fetch_events; simpl.
  - left. rewrite notifier_calls_app. now destruct C as [-> | ->].
  - now left.
  - now left.
  - now left.
  - right. exists m, (url_found m).
    rewrite notifier_calls_app, extract_calls_app.
    destruct (ole_events_silent evs O) as (-> & -> & _).
    rewrite ExtractURL_nonnil.
    repeat split; try assumption; now destruct err.
Qed.

(** X13: the exit status is 1 exactly when the one line the run logged
    starts with "Error "; otherwise it is 0, and the run logged nothing
    (a notification was shown) or one of its three notes. *)
Theorem main_exit_status_and_log (w : World) :
  (exit_status (fst (run w)) = 1
   /\ exists rest, log_lines (trace (snd (run w))) = ["Error " ++ rest])
  \/ (exit_status (fst (run w)) = 0
      /\ (log_lines (trace (snd (run w))) = []
          \/ log_lines (trace (snd (run w))) = ["No new messages."]
          \/ log_lines (trace (snd (run w))) = ["No message in the last update."]
          \/ log_lines (trace (snd (run w)))
             = ["No URL found in the last message."])).
Proof.
  destruct (main_runs w) as [e closed C | | | m | m err evs U O];
    unfold fetch_events; simpl.
  - left. split; [reflexivity|]. rewrite log_lines_app.
    eexists. destruct C as [-> | ->]; reflexivity.
  - right. split; [reflexivity|]. right; left; reflexivity.
  - right. split; [reflexivity|]. right; right; left; reflexivity.
  - right. split; [reflexivity|]. right; right; right; reflexivity.
  - rewrite log_lines_app. destruct (ole_events_silent evs O) as (_ & _ & ->).
    destruct err as [e|]; simpl.
    + left. split; [reflexivity|]. eexists. reflexivity.
    + right. split; [reflexivity|]. left; reflexivity.
Qed.

(** X14: from the API to the platform: when the five platform calls
    before it succeed, the document [main] has put as "InnerXml" is
    the toast format filled with the fixed title, with the text of the
    last message after "You received a new message: ", and with the URL
    extracted from it, each as received. *)
Theorem main_puts_message_in_toast
    (w : World) (updates : slice Update) (init : list Update)
    (lastUpdate : Update) (m : TelegramMsg) (u : string) :
  fetched w updates ->
  elems updates = (init ++ [lastUpdate])%list ->
  Message lastUpdate = Some m ->
  fst (ExtractURL (Some m) start) = Val u ->
  u <> "" ->
  template_obtained w ->
  In (EvOle (PutProperty content "InnerXml"
               (toastXML "New Message"
                  ("You received a new message: " ++ Text m) u))
        (ole w (PutProperty content "InnerXml"
                  (toastXML "New Message"
                     ("You received a new message: " ++ Text m) u))))
     (trace (snd (run w))).
Proof.
  intros F E M X U T.
  rewrite ExtractURL_nonnil in X. simpl in X. injection X as <-.
  destruct (ShowNotification_at_start w "New Message" (notification_body m)
              (url_found m)) as (err & evs & N & _ & _).
  unfold run.
  rewrite (main_notify_run w updates init lastUpdate m err start F E M U N).
  unfold extend, start. cbn [snd trace app].
  apply in_or_app. right. right. apply in_or_app. left.
  apply (ShowNotification_puts_toastXML w "New Message" (notification_body m)
           (url_found m) start T).
Qed.

Lemma main_puts_message_in_toast_witness :
  In (EvOle (PutProperty content "InnerXml"
               (toastXML "New Message" "You received a new message: hello"
                  "http://x.test")) None)
     (trace (snd (run (serving
                         (Some [ {| UpdateID := 3; Message := Some hello_msg |} ])
                         all_succeed)))).
Proof.
  apply (main_puts_message_in_toast
           (serving (Some [ {| UpdateID := 3; Message := Some hello_msg |} ])
              all_succeed)
           (Some [ {| UpdateID := 3; Message := Some hello_msg |} ])
           [] {| UpdateID := 3; Message := Some hello_msg |} hello_msg
           "http://x.test").
  - apply serving_fetched.
  - reflexivity.
  - reflexivity.
  - reflexivity.
  - discriminate.
  - repeat split; reflexivity.
Defined.

Lemma ShowNotification_same_platform
    (w1 w2 : World) (title message url : string) (s : Proc) :
  (forall c, ole w1 c = ole w2 c) ->
  ShowNotification w1 title message url s
  = ShowNotification w2 title message url s.
Proof.
  intros H. run_notification. rewrite !H. reflexivity.
Qed.

(** X15: only the last update counts: two runs whose fetches return
    lists with the same last element, with the same token and the same
    platform, are the same run, whatever the lists hold before it (how
    many updates, with which identifiers, messages and links). *)
Theorem main_reads_last_update_only
    (w1 w2 : World) (updates1 updates2 : slice Update)
    (init1 init2 : list Update) (lastUpdate : Update) :
  Getenv w1 "TELEGRAM_BOT_TOKEN" = Getenv w2 "TELEGRAM_BOT_TOKEN" ->
  (forall c, ole w1 c = ole w2 c) ->
  fetched w1 updates1 ->
  fetched w2 updates2 ->
  elems updates1 = (init1 ++ [lastUpdate])%list ->
  elems updates2 = (init2 ++ [lastUpdate])%list ->
  run w1 = run w2.
Proof.
  intros G P F1 F2 E1 E2. unfold run.
  assert (V : fetch_events w1 = fetch_events w2)
    by (unfold fetch_events; now rewrite G).
  destruct (Message lastUpdate) as [m|] eqn:M.
  2:{ rewrite (main_no_message w1 updates1 init1 lastUpdate start F1 E1 M).
      rewrite (main_no_message w2 updates2 init2 lastUpdate start F2 E2 M).
      now rewrite V. }
  destruct (String.eqb_spec (url_found m) "") as [U|U].
  { rewrite (main_no_url w1 updates1 init1 lastUpdate m start F1 E1 M U).
    rewrite (main_no_url w2 updates2 init2 lastUpdate m start F2 E2 M U).
    now rewrite V. }
  destruct (ShowNotification_at_start w1 "New Message" (notification_body m)
              (url_found m)) as (err & evs & N & _ & _).
  rewrite (main_notify_run w1 updates1 init1 lastUpdate m err start F1 E1 M U N).
  rewrite (ShowNotification_same_platform w1 w2 _ _ _ start P) in N.
  rewrite (main_notify_run w2 updates2 init2 lastUpdate m err start F2 E2 M U N).
  rewrite (ShowNotification_same_platform w1 w2 _ _ _ start P).
  now rewrite V.
Qed.

Lemma main_reads_last_update_only_witness :
  run (serving (Some [ {| UpdateID := 9; Message := Some other_msg |};
                       {| UpdateID := 8; Message := Some shadowed_msg |};
                       {| UpdateID := 3; Message := Some hello_msg |} ])
         all_succeed)
  = run (serving (Some [ {| UpdateID := 3; Message := Some hello_msg |} ])
           all_succeed).
Proof.
  apply (main_reads_last_update_only
           (serving (Some [ {| UpdateID := 9; Message := Some other_msg |};
                            {| UpdateID := 8; Message := Some shadowed_msg |};
                            {| UpdateID := 3; Message := Some hello_msg |} ])
              all_succeed)
           (serving (Some [ {| UpdateID := 3; Message := Some hello_msg |} ])
              all_succeed)
           (Some [ {| UpdateID := 9; Message := Some other_msg |};
                   {| UpdateID := 8; Message := Some shadowed_msg |};
                   {| UpdateID := 3; Message := Some hello_msg |} ])
           (Some [ {| UpdateID := 3; Message := Some hello_msg |} ])
           [ {| UpdateID := 9; Message := Some other_msg |};
             {| UpdateID := 8; Message := Some shadowed_msg |} ]
           []
           {| UpdateID := 3; Message := Some hello_msg |}).
  - reflexivity.
  - reflexivity.
  - apply serving_fetched.
  - apply serving_fetched.
  - reflexivity.
  - reflexivity.
Defined.
